(** * tomes_tool: email_to_replies

    A shallow embedding of [email_to_replies/email_to_replies.py]: the
    name sanitizer, the contact parser, the reply splitter, the metadata
    extractor and the signature detector, with the properties stated about
    them.

    Text is modelled as [string] over code points 0..127, with Python's
    [str] classification of those code points ([isspace], [isalpha],
    [upper], [lower]).  Python also classifies code points of 128 and
    above (a letter with an accent is alphabetic and has an upper case, a
    no-break space is white space); here they are carried through
    unchanged and are neither alphabetic nor white space, so a statement
    about the class of characters is made for text that [Py.is_ascii]
    holds of. *)

From Stdlib Require Import ZArith QArith Ascii String List Lia Bool.
From stdpp Require Import gmap strings.

Import ListNotations.
Local Open Scope string_scope.
Local Open Scope list_scope.

(** ** Python's [str] primitives *)

Module Py.

Definition code (c : ascii) : nat := nat_of_ascii c.

Definition between (lo hi n : nat) : bool := (lo <=? n)%nat && (n <=? hi)%nat.

(** The code points the classification below is Python's on. *)
Definition is_ascii (c : ascii) : bool := (code c <? 128)%nat.

(** [str.isspace] on one code point below 128: TAB..CR, FS..US and
    SPACE. *)
Definition isspace (c : ascii) : bool :=
  between 9 13 (code c) || between 28 32 (code c).

(** [str.isalpha] on one code point below 128. *)
Definition isalpha (c : ascii) : bool :=
  between 65 90 (code c) || between 97 122 (code c).

Definition upper_char (c : ascii) : ascii :=
  if between 97 122 (code c) then ascii_of_nat (code c - 32) else c.

Definition lower_char (c : ascii) : ascii :=
  if between 65 90 (code c) then ascii_of_nat (code c + 32) else c.

Fixpoint map_chars (f : ascii -> ascii) (s : string) : string :=
  match s with
  | EmptyString => EmptyString
  | String c s' => String (f c) (map_chars f s')
  end.

(** [s.upper()] and [s.lower()], on code points below 128. *)
Definition upper : string -> string := map_chars upper_char.
Definition lower : string -> string := map_chars lower_char.

(** The characters of [s] that satisfy [p], joined. *)
Fixpoint keep (p : ascii -> bool) (s : string) : string :=
  match s with
  | EmptyString => EmptyString
  | String c s' => if p c then String c (keep p s') else keep p s'
  end.

Definition is_empty (s : string) : bool :=
  match s with EmptyString => true | String _ _ => false end.

(** [s.split()]: the maximal runs of characters that are not white
    space.  [cur] is the run being read. *)
Fixpoint split_from (cur s : string) : list string :=
  match s with
  | EmptyString => if is_empty cur then [] else [cur]
  | String c s' =>
      if isspace c
      then (if is_empty cur then split_from EmptyString s'
            else cur :: split_from EmptyString s')
      else split_from (cur ++ String c EmptyString) s'
  end.

Definition split (s : string) : list string := split_from EmptyString s.

(** [s.split(sep)] for a one-character separator: empty pieces are kept
    and the empty string gives one empty piece. *)
Fixpoint split_on (sep : ascii) (s : string) : list string :=
  match s with
  | EmptyString => [EmptyString]
  | String c s' =>
      if Ascii.eqb c sep then EmptyString :: split_on sep s'
      else match split_on sep s' with
           | t :: ts => String c t :: ts
           | [] => [String c EmptyString]
           end
  end.

(** [sep.join(parts)]. *)
Definition join (sep : string) (parts : list string) : string :=
  String.concat sep parts.

Fixpoint lstrip (s : string) : string :=
  match s with
  | EmptyString => EmptyString
  | String c s' => if isspace c then lstrip s' else s
  end.

Fixpoint rstrip (s : string) : string :=
  match s with
  | EmptyString => EmptyString
  | String c s' =>
      let r := rstrip s' in
      if is_empty r && isspace c then EmptyString else String c r
  end.

(** [s.strip()]. *)
Definition strip (s : string) : string := rstrip (lstrip s).

(** [s[:n]] and [s[n:]] for a literal [n >= 0]. *)
Fixpoint take (n : nat) (s : string) : string :=
  match n, s with
  | S n', String c s' => String c (take n' s')
  | _, _ => EmptyString
  end.

Fixpoint drop (n : nat) (s : string) : string :=
  match n, s with
  | S n', String _ s' => drop n' s'
  | _, _ => s
  end.

(** [s.startswith(p)], used for [s[:len(p)] == p]. *)
Fixpoint startswith (p s : string) : bool :=
  match p, s with
  | EmptyString, _ => true
  | String a p', String b s' => Ascii.eqb a b && startswith p' s'
  | String _ _, EmptyString => false
  end.

(** [sub in s]. *)
Fixpoint contains (sub s : string) : bool :=
  startswith sub s ||
  match s with
  | EmptyString => false
  | String _ s' => contains sub s'
  end.

(** [s.replace(old, empty)] for a non-empty [old]: the occurrences are
    removed left to right, without overlap.  [skip] counts the
    characters of the occurrence being removed. *)
Fixpoint remove_from (old : string) (skip : nat) (s : string) : string :=
  match s with
  | EmptyString => EmptyString
  | String c s' =>
      match skip with
      | S k => remove_from old k s'
      | O => if startswith old s
             then remove_from old (String.length old - 1) s'
             else String c (remove_from old 0 s')
      end
  end.

Definition remove (old s : string) : string := remove_from old 0 s.

(** [l[a:b]] for [0 <= a] and [0 <= b]. *)
Definition slice {A} (l : list A) (a b : nat) : list A :=
  firstn (b - a) (skipn a l).

End Py.

(** ** The title set *)

(** [TITLES]: the set of the tokens [t] of the word list's [read().split()]
    with [t[0] != '#'].  The word list [_titles.txt] is not part of the
    sources; its text is the argument. *)
Definition is_comment_token (t : string) : bool :=
  match t with
  | String c _ => Ascii.eqb c "#"
  | EmptyString => false
  end.

Definition title_tokens (titles_txt : string) : list string :=
  List.filter (fun t => negb (is_comment_token t)) (Py.split titles_txt).

Definition TITLES (titles_txt : string) : gset string :=
  list_to_set (title_tokens titles_txt).

(** ** The name sanitizer *)

Section Sanitizer.

(** The global [TITLES]. *)
Variable titles : gset string.

(** The body of the loop of [sanitize_name] over [name.split()]. *)
Fixpoint sanitize_parts (parts : list string) : list string :=
  match parts with
  | [] => []
  | name_part :: rest =>
      let name_part := Py.keep Py.isalpha name_part in
      if String.eqb (Py.upper name_part) name_part then sanitize_parts rest
      else if bool_decide (name_part ∈ titles) then sanitize_parts rest
      else name_part :: sanitize_parts rest
  end.

Definition sanitize_name (name : string) : string :=
  Py.join " " (sanitize_parts (Py.split name)).

(** ** The contact parser *)

Record contact := Contact {
  name_original : string;
  name : string;
  address : option string
}.

Definition newline : ascii := ascii_of_nat 10.

Definition is_open (c : ascii) : bool := Ascii.eqb c "<" || Ascii.eqb c "[".
Definition is_close (c : ascii) : bool := Ascii.eqb c ">" || Ascii.eqb c "]".

(** Index of the last character of [s] that satisfies [p]. *)
Fixpoint rfind (p : ascii -> bool) (s : string) : option nat :=
  match s with
  | EmptyString => None
  | String c s' =>
      match rfind p s' with
      | Some i => Some (S i)
      | None => if p c then Some 0%nat else None
      end
  end.

(** The pattern of [get_contact], matched at the start of [line]: any
    characters (group 1), one of the brackets < and [, any characters
    (group 2), one of the brackets > and ].  A dot does not match a
    newline, so the match lies before the first one; both groups are
    greedy, so the closing bracket is the last one there and the opening
    bracket the last one before it. *)
Definition match_contact (line : string) : option (string * string) :=
  let reach := hd EmptyString (Py.split_on newline line) in
  match rfind is_close reach with
  | None => None
  | Some close =>
      let before := Py.take close reach in
      match rfind is_open before with
      | None => None
      | Some open => Some (Py.take open before, Py.drop (S open) before)
      end
  end.

Definition get_contact (line : string) : contact :=
  match match_contact line with
  | Some (group1, group2) =>
      let name := Py.strip group1 in
      let name_sanitized := sanitize_name name in
      let address := Py.strip group2 in
      let address := Py.remove "mailto:" address in
      Contact name name_sanitized (Some address)
  | None =>
      let name := line in
      let name_sanitized := sanitize_name name in
      Contact name name_sanitized None
  end.

End Sanitizer.

Definition eol : string := String newline EmptyString.

(** ** The reply splitter *)

Definition is_dash (c : ascii) : bool := Ascii.eqb c "-".

Fixpoint drop_while (p : ascii -> bool) (s : string) : string :=
  match s with
  | EmptyString => EmptyString
  | String c s' => if p c then drop_while p s' else s
  end.

(** One or more characters satisfying [p] at the start of [s]: what is
    left after all of them. *)
Definition some_of (p : ascii -> bool) (s : string) : option string :=
  match s with
  | String c s' => if p c then Some (drop_while p s') else None
  | EmptyString => None
  end.

(** The separator pattern of [get_replies], matched at the start of [s]
    with [re.I]: one character other than a newline, dashes, optional white
    space, the words Original Message, optional white space, dashes, a
    newline.  No class of the pattern overlaps the next one, so each
    repetition takes all it can; the result is what follows the match. *)
Definition match_separator (s : string) : option string :=
  match s with
  | EmptyString => None
  | String c s1 =>
      if Ascii.eqb c newline then None
      else
        match some_of is_dash s1 with
        | None => None
        | Some s2 =>
            let s3 := drop_while Py.isspace s2 in
            if String.eqb (Py.lower (Py.take 16 s3)) "original message"
            then
              match some_of is_dash (drop_while Py.isspace (Py.drop 16 s3)) with
              | Some (String d rest) =>
                  if Ascii.eqb d newline then Some rest else None
              | _ => None
              end
            else None
        end
  end.

(** [re.sub(pattern, empty, message, flags=re.I)]: matches are removed left
    to right.  [skip] counts the characters of the match being removed. *)
Fixpoint remove_separators_from (skip : nat) (s : string) : string :=
  match s with
  | EmptyString => EmptyString
  | String c s' =>
      match skip with
      | S k => remove_separators_from k s'
      | O =>
          match match_separator s with
          | Some rest =>
              remove_separators_from (String.length s' - String.length rest) s'
          | None => String c (remove_separators_from 0 s')
          end
      end
  end.

Definition remove_separators (message : string) : string :=
  remove_separators_from 0 message.

Definition is_from (line : string) : bool :=
  String.eqb (Py.take 6 line) "From: ".

(** The loop that records the index [i] of every line starting a reply. *)
Fixpoint find_breakpoints (lines : list string) (i : nat) : list nat :=
  match lines with
  | [] => []
  | line :: rest =>
      if is_from line then i :: find_breakpoints rest (S i)
      else find_breakpoints rest (S i)
  end.

(** [breakpoints] when the loop is over and [len(lines)] is appended. *)
Definition breakpoints (lines : list string) : list nat :=
  (0%nat :: find_breakpoints lines 0) ++ [List.length lines].

(** [[(breakpoints[br], breakpoints[br+1]) for br in breakpoint_range]];
    every index is in range. *)
Definition breakpoint_pairs (bps : list nat) : list (nat * nat) :=
  List.map (fun br => (nth br bps 0%nat, nth (br + 1) bps 0%nat))
           (seq 0 (List.length bps - 1)).

(** [get_replies] from the text read from the message file. *)
Definition split_replies (lines : list string) : list (list string) :=
  List.map (fun bp => Py.slice lines (fst bp) (snd bp))
           (breakpoint_pairs (breakpoints lines)).

Definition message_lines (message : string) : list string :=
  Py.split_on newline (remove_separators message).

Definition get_replies (message : string) : list (list string) :=
  split_replies (message_lines message).

(** ** The metadata extractor *)

Record metadata := Metadata {
  sender : option contact;
  recipients : option (list contact);
  timestamp : option string;
  subject : option string;
  lines : nat
}.

(** The tests on the start of a line: [line[:6] == 'From: '] is [is_from],
    and likewise for the other headers. *)
Definition is_to_cc (line : string) : bool :=
  String.eqb (Py.take 4 line) "To: " || String.eqb (Py.take 4 line) "Cc: ".

Definition is_sent (line : string) : bool :=
  String.eqb (Py.take 6 line) "Sent: ".

Definition is_subject (line : string) : bool :=
  String.eqb (Py.take 9 line) "Subject: ".

Section Extractor.

Variable titles : gset string.

(** The chain of tests on one line, on the values collected so far. *)
Definition scan_line (line : string) (md : metadata) : metadata :=
  if is_from line then
    Metadata (Some (get_contact titles (Py.drop 6 line)))
             (recipients md) (timestamp md) (subject md) (lines md)
  else if is_to_cc line then
    let recipient := get_contact titles (Py.drop 4 line) in
    Metadata (sender md)
             (match recipients md with
              | Some found => Some (found ++ [recipient])
              | None => Some [recipient]
              end)
             (timestamp md) (subject md) (lines md)
  else if is_sent line then
    Metadata (sender md) (recipients md) (Some (Py.drop 6 line))
             (subject md) (lines md)
  else if is_subject line then
    Metadata (sender md) (recipients md) (timestamp md)
             (Some (Py.drop 9 line)) (lines md)
  else md.

(** The loop over [reply] with its counter [i]: the line is read, then
    the loop is left when [i > 9], else [i] is incremented. *)
Fixpoint scan_lines (reply : list string) (i : nat) (md : metadata)
  : metadata :=
  match reply with
  | [] => md
  | line :: rest =>
      let md' := scan_line line md in
      if (9 <? i)%nat then md' else scan_lines rest (S i) md'
  end.

Definition get_metadata (reply : list string) : metadata :=
  scan_lines reply 0 (Metadata None None None None (List.length reply)).

End Extractor.

(** ** The signature detector *)

Inductive exception := ZeroDivisionError.

Record signature_metadata := SignatureMetadata {
  has_signature : bool;
  signature : option string;
  reply_text : option string;
  address_in_signature : bool
}.

(** The quotients that a float cannot tell from zero: those of size
    2^-1075 at most, half of the least float above zero. *)
Definition tiny_bound : Z := (2 ^ 1075)%Z.

(** [a / b] on two [int]s: the quotient as a number that need not be whole.
    Python gives the nearest float.  A quotient of size 2^-1075 at most is
    rounded to zero.  For a dividend below 2^53, as every [len] is, any
    other quotient gives a float that equals a whole number exactly when
    the quotient does, so its comparison with an [int] is decided on the
    rational. *)
Definition true_div (a b : Z) : exception + Q :=
  if (b =? 0)%Z then inl ZeroDivisionError
  else if (Z.abs a * tiny_bound <=? Z.abs b)%Z then inr 0%Q
  else inr (inject_Z a / inject_Z b)%Q.

Definition no_signature : signature_metadata :=
  SignatureMetadata false None None false.

Section Detector.

Variable titles : gset string.
Variable reply : list string.
Variable sender_ : contact.
Variable max_length : Q.

(** [if sender['address']]: neither [None] nor empty. *)
Definition truthy (a : option string) : bool :=
  match a with
  | Some a => negb (Py.is_empty a)
  | None => false
  end.

(** The body of the branch taken at the first line of the signature. *)
Definition found_at (i : nat) : signature_metadata :=
  let signature := Py.join eol (skipn (i - 1) reply) in
  let signature := Py.strip signature in
  let reply_text := Py.join eol (firstn (i - 1) reply) in
  let reply_text := Py.strip reply_text in
  let address_in_signature :=
    if truthy (address sender_)
    then Py.contains (Py.lower (default EmptyString (address sender_)))
                     (Py.lower signature)
    else false in
  SignatureMetadata true (Some signature) (Some reply_text)
                    address_in_signature.

(** The loop over [reply_reversed] with its counters [i] and [j]. *)
Fixpoint search (reply_reversed : list string) (i j : nat)
  : signature_metadata :=
  match reply_reversed with
  | [] => no_signature
  | line :: rest =>
      if Qeq_bool (inject_Z (Z.of_nat j)) max_length then no_signature
      else
        let line := sanitize_name titles line in
        let tokens := Py.split line in
        let found_sender :=
          List.filter
            (fun t => Py.contains (Py.lower t) (Py.lower (name sender_)))
            tokens in
        if (1 <? List.length tokens)%nat && bool_decide (found_sender = tokens)
        then found_at i
        else search rest (i - 1) (j + 1)
  end.

End Detector.

Definition get_signature (titles : gset string) (reply : list string)
    (sender_ : contact) (length_divisor : Z)
  : exception + signature_metadata :=
  let reply_reversed := rev reply in
  match true_div (Z.of_nat (List.length reply_reversed)) length_divisor with
  | inl e => inl e
  | inr max_length =>
      inr (search titles reply sender_ max_length reply_reversed
                  (List.length reply_reversed) 0)
  end.

(** ** Notions used in the statements and proofs *)

(** Every character of [s] satisfies [p]. *)
Fixpoint every (p : ascii -> bool) (s : string) : bool :=
  match s with
  | EmptyString => true
  | String c s' => p c && every p s'
  end.

(** A token the sanitizer keeps: letters only, not its own upper case (so
    not empty), not a title. *)
Definition clean (titles : gset string) (t : string) : Prop :=
  every Py.isalpha t = true /\
  String.eqb (Py.upper t) t = false /\
  t ∉ titles.

(** The pairs of neighbours of a list, first to last. *)
Fixpoint adjacent (bs : list nat) : list (nat * nat) :=
  match bs with
  | a :: (b :: _) as rest => (a, b) :: adjacent rest
  | _ => []
  end.

(** [a <= b1 <= b2 <= ...]. *)
Fixpoint ascending (a : nat) (bs : list nat) : Prop :=
  match bs with
  | [] => True
  | b :: rest => (a <= b)%nat /\ ascending b rest
  end.

(** ** The properties stated about the title set, and sample inputs *)

(** What the word list's comment lines are said to do: no token of a line
    whose first character is the comment mark is a member of the set. *)
Definition comment_lines_excluded (titles_txt : string) : Prop :=
  forall line t : string,
    In line (Py.split_on newline titles_txt) ->
    is_comment_token line = true ->
    In t (Py.split line) ->
    t ∉ TITLES titles_txt.

Definition sample_titles_txt : string :=
  "# Military ranks" +:+ eol +:+ "Brigadier General" +:+ eol +:+
  "# Suffixes" +:+ eol +:+ "Dr Jr" +:+ eol.

Definition sample_titles : gset string := TITLES sample_titles_txt.

Definition sample_message : string :=
  "From: A <a@x.com>" +:+ eol +:+ "Hello" +:+ eol +:+
  "-----Original Message-----" +:+ eol +:+
  "From: B <b@x.com>" +:+ eol +:+ "Bye".

(** The header values of a reply in closed form, from the lines [scanned]:
    the last line of each kind gives the sender, the time stamp and the
    subject; every recipient line gives one recipient, in order. *)
Definition headers_of (titles : gset string) (scanned : list string)
    (n : nat) : metadata :=
  Metadata
    (option_map (fun line => get_contact titles (Py.drop 6 line))
                (List.find is_from (rev scanned)))
    (match List.filter is_to_cc scanned with
     | [] => None
     | found =>
         Some (List.map (fun line => get_contact titles (Py.drop 4 line)) found)
     end)
    (option_map (Py.drop 6) (List.find is_sent (rev scanned)))
    (option_map (Py.drop 9) (List.find is_subject (rev scanned)))
    n.

(** One turn of the loop of [get_metadata], as a step of a fold. *)
Definition scan_step (titles : gset string) (md : metadata) (line : string)
  : metadata :=
  scan_line titles line md.

(** Two results with the same header values. *)
Definition same_headers (a b : metadata) : Prop :=
  sender a = sender b /\ recipients a = recipients b /\
  timestamp a = timestamp b /\ subject a = subject b.

Definition two_senders : list string :=
  ["From: Alice Smith <a@x.org>"; "To: Carol <c@x.org>";
   "From: Bob Jones <b@y.org>"; "Subject: Hi"].

Definition long_reply : list string :=
  ["From: Alice Smith <a@x.org>"; "1"; "2"; "3"; "4"; "5"; "6"; "7"; "8";
   "To: Carol <c@x.org>"; "Subject: kept"; "Subject: late"; "Sent: never"].

Definition john_smith : contact :=
  get_contact sample_titles "John Smith <js@x.org>".

Definition signed_reply : list string :=
  ["Hello Carol,"; "see you on Monday."; "Thanks,"; "John Smith"].

Definition three_lines : list string :=
  ["John Smith"; "see you on Monday."; "bye"].

Definition one_line : list string := ["John Smith"].

(** ** Notions used in the further properties *)

Definition not_space (c : ascii) : bool := negb (Py.isspace c).

(** A character that is not a small letter: [upper] leaves it as it is. *)
Definition not_small (c : ascii) : bool := negb (Py.between 97 122 (Py.code c)).

(** [get_replies] told as one pass over the lines: [cur] is the reply
    being read, and a line that starts a reply closes it. *)
Fixpoint split_at_from (cur : list string) (lines : list string)
  : list (list string) :=
  match lines with
  | [] => [cur]
  | line :: rest =>
      if is_from line then cur :: split_at_from [line] rest
      else split_at_from (cur ++ [line]) rest
  end.

(** A reply after the first: a line that starts a reply, then lines that
    do not. *)
Definition headed_reply (reply : list string) : Prop :=
  exists (line : string) (body : list string),
    reply = line :: body /\ is_from line = true /\
    Forall (fun l => is_from l = false) body.

(** A run of [k] dashes. *)
Fixpoint dashes (k : nat) : string :=
  match k with
  | O => EmptyString
  | S k' => String "-" (dashes k')
  end.

(** A separator line as mail clients write it: two dashes or more, the two
    words, one dash or more, and the end of the line. *)
Definition separator_line (a b : nat) : string :=
  dashes (S (S a)) +:+ "Original Message" +:+ dashes (S b) +:+ eol.

(** The text is empty or ends with a newline: it is made of whole lines. *)
Fixpoint whole_lines (s : string) : bool :=
  match s with
  | EmptyString => true
  | String c EmptyString => Ascii.eqb c newline
  | String _ s' => whole_lines s'
  end.

(** The test of the loop of [get_signature] on one line: two tokens or
    more, each found in the name of the sender. *)
Definition starts_signature (titles : gset string) (sender_ : contact)
    (line : string) : bool :=
  let line := sanitize_name titles line in
  let tokens := Py.split line in
  let found_sender :=
    List.filter
      (fun t => Py.contains (Py.lower t) (Py.lower (name sender_)))
      tokens in
  (1 <? List.length tokens)%nat && bool_decide (found_sender = tokens).

(** The [__main__] block on the text of the message file: for every reply
    with a sender, the metadata and the signature that are printed. *)
Fixpoint print_replies (titles : gset string) (MS : list (list string))
  : exception + list (metadata * option string) :=
  match MS with
  | [] => inr []
  | ms :: rest =>
      let md := get_metadata titles ms in
      match sender md with
      | Some sender_name =>
          match get_signature titles ms sender_name 2 with
          | inl e => inl e
          | inr found =>
              match print_replies titles rest with
              | inl e => inl e
              | inr printed => inr ((md, signature found) :: printed)
              end
          end
      | None => print_replies titles rest
      end
  end.

Definition main (titles : gset string) (message : string)
  : exception + list (metadata * option string) :=
  print_replies titles (get_replies message).

(** ** Facts about the string primitives *)

Lemma append_cons (c : ascii) (s t : string) :
  String c s +:+ t = String c (s +:+ t).
Proof. reflexivity. Qed.

Lemma append_empty_r (s : string) : s +:+ EmptyString = s.
Proof.
  induction s as [|c s IH]; [reflexivity | now rewrite append_cons, IH].
Qed.

Lemma append_snoc (s t : string) (c : ascii) :
  (s +:+ String c EmptyString) +:+ t = s +:+ String c t.
Proof.
  induction s as [|d s IH]; [reflexivity | now rewrite !append_cons, IH].
Qed.

Lemma alpha_not_space (c : ascii) :
  Py.isalpha c = true -> Py.isspace c = false.
Proof.
  unfold Py.isalpha, Py.isspace, Py.between.
  generalize (Py.code c); intros n H.
  apply orb_true_iff in H.
  apply orb_false_iff; split; apply andb_false_iff;
    destruct H as [H|H]; apply andb_true_iff in H; destruct H as [H1 H2];
    apply Nat.leb_le in H1; apply Nat.leb_le in H2;
    right; apply Nat.leb_gt; lia.
Qed.

Lemma every_keep (p : ascii -> bool) (s : string) :
  every p (Py.keep p s) = true.
Proof.
  induction s as [|c s IH]; simpl; [reflexivity|].
  destruct (p c) eqn:E; simpl; [rewrite E|]; assumption.
Qed.

Lemma keep_every (p : ascii -> bool) (s : string) :
  every p s = true -> Py.keep p s = s.
Proof.
  induction s as [|c s IH]; simpl; [reflexivity|].
  intros H. apply andb_true_iff in H. destruct H as [Hc Hs].
  rewrite Hc, IH; auto.
Qed.

(** A run without white space is read into the current token whole. *)
Lemma split_from_run (t cur rest : string) :
  every Py.isalpha t = true ->
  Py.split_from cur (t +:+ rest) = Py.split_from (cur +:+ t) rest.
Proof.
  revert cur. induction t as [|c t IH]; intros cur H.
  - now rewrite append_empty_r.
  - rewrite append_cons. simpl.
    simpl in H. apply andb_true_iff in H. destruct H as [Hc Ht].
    rewrite (alpha_not_space _ Hc), IH by assumption.
    now rewrite append_snoc.
Qed.

Lemma clean_not_empty titles t : clean titles t -> Py.is_empty t = false.
Proof. intros (_ & H & _). destruct t; [discriminate H | reflexivity]. Qed.

Lemma sanitize_parts_clean titles parts :
  Forall (clean titles) (sanitize_parts titles parts).
Proof.
  induction parts as [|p parts IH]; simpl; [constructor|].
  destruct (String.eqb _ _) eqn:Eu; [assumption|].
  case_bool_decide as Et; [assumption|].
  constructor; [|assumption].
  split; [apply every_keep | split; assumption].
Qed.

Lemma sanitize_parts_fixed titles parts :
  Forall (clean titles) parts -> sanitize_parts titles parts = parts.
Proof.
  induction 1 as [|t parts (Ha & Hu & Ht) _ IH]; simpl; [reflexivity|].
  rewrite (keep_every _ _ Ha), Hu.
  case_bool_decide; [contradiction | now rewrite IH].
Qed.

Lemma split_from_space (cur rest : string) :
  Py.is_empty cur = false ->
  Py.split_from cur (" " +:+ rest) = cur :: Py.split_from EmptyString rest.
Proof. intros H. rewrite append_cons. simpl. now rewrite H. Qed.

Lemma join_cons (sep t u : string) (parts : list string) :
  Py.join sep (t :: u :: parts) = t +:+ sep +:+ Py.join sep (u :: parts).
Proof. reflexivity. Qed.

Lemma split_join titles parts :
  Forall (clean titles) parts -> Py.split (Py.join " " parts) = parts.
Proof.
  unfold Py.split.
  induction 1 as [|t parts Ht Hall IH]; [reflexivity|].
  pose proof (clean_not_empty _ _ Ht) as Hne.
  destruct Ht as (Ha & _).
  destruct parts as [|u parts].
  - change (Py.join " " [t]) with t.
    rewrite <- (append_empty_r t) at 1.
    rewrite split_from_run by assumption.
    change (EmptyString +:+ t) with t. simpl. now rewrite Hne.
  - rewrite join_cons, split_from_run by assumption.
    change (EmptyString +:+ t) with t.
    now rewrite split_from_space, IH.
Qed.

Lemma sanitize_name_fixed titles (s : string) :
  sanitize_name titles (sanitize_name titles s) = sanitize_name titles s.
Proof.
  unfold sanitize_name at 1 3.
  pose proof (sanitize_parts_clean titles (Py.split s)) as H.
  unfold sanitize_name.
  now rewrite (split_join titles _ H), (sanitize_parts_fixed titles _ H).
Qed.

(** C9: the name sanitizer is idempotent: sanitizing a sanitized name gives
    the same string, for every title set and every string. *)
Theorem sanitize_name_idempotent (titles : gset string) (s : string) :
  sanitize_name titles (sanitize_name titles s) = sanitize_name titles s.
Proof. exact (sanitize_name_fixed titles s). Qed.

(** ** The title set *)

(** The tokens the set holds are the tokens of the word list that do not
    begin with the comment mark. *)
Lemma elem_of_TITLES (titles_txt t : string) :
  t ∈ TITLES titles_txt <->
  In t (Py.split titles_txt) /\ is_comment_token t = false.
Proof.
  unfold TITLES, title_tokens.
  rewrite elem_of_list_to_set, list_elem_of_In, filter_In.
  now rewrite negb_true_iff.
Qed.

(** C8, as stated, fails: the word Military stands on a line whose first
    character is the comment mark and is a member of the title set. *)
Lemma TITLES_comment_line_counterexample :
  ~ comment_lines_excluded sample_titles_txt.
Proof.
  intros H.
  apply (H "# Military ranks" "Military").
  - vm_compute. auto.
  - reflexivity.
  - vm_compute. auto.
  - apply elem_of_TITLES. vm_compute. auto.
Qed.

(** C8, amended: a token is a member of the title set exactly when it is a
    white-space separated token of the word list whose first character is
    not the comment mark; the comment mark excludes the token it starts,
    not the rest of its line. *)
Theorem TITLES_excludes_comment_tokens (titles_txt t : string) :
  t ∈ TITLES titles_txt <->
  In t (Py.split titles_txt) /\ is_comment_token t = false.
Proof. exact (elem_of_TITLES titles_txt t). Qed.

(** ** The reply splitter *)

Lemma adjacent_cons (a b : nat) (rest : list nat) :
  adjacent (a :: b :: rest) = (a, b) :: adjacent (b :: rest).
Proof. reflexivity. Qed.

Lemma breakpoint_pairs_adjacent (bps : list nat) :
  breakpoint_pairs bps = adjacent bps.
Proof.
  unfold breakpoint_pairs.
  induction bps as [|a [|b rest] IH]; [reflexivity | reflexivity |].
  rewrite adjacent_cons, <- IH.
  change (List.length (a :: b :: rest) - 1)%nat with (S (List.length rest)).
  change (List.length (b :: rest) - 1)%nat with (List.length rest - 0)%nat.
  rewrite Nat.sub_0_r.
  rewrite <- cons_seq, <- seq_shift, List.map_cons, List.map_map.
  reflexivity.
Qed.

Lemma firstn_plus {A} (l : list A) (n k : nat) :
  firstn (n + k) l = firstn n l ++ firstn k (skipn n l).
Proof.
  revert l. induction n as [|n IH]; intros [|x l]; simpl;
    try reflexivity; [now rewrite firstn_nil | now rewrite IH].
Qed.

Lemma skipn_plus {A} (l : list A) (n k : nat) :
  skipn (n + k) l = skipn k (skipn n l).
Proof.
  revert l. induction n as [|n IH]; intros [|x l]; simpl;
    try reflexivity; [now rewrite skipn_nil | apply IH].
Qed.

(** Two slices that meet make one slice. *)
Lemma slice_merge {A} (l : list A) (a b c : nat) :
  (a <= b)%nat -> (b <= c)%nat ->
  Py.slice l a b ++ Py.slice l b c = Py.slice l a c.
Proof.
  intros Hab Hbc. unfold Py.slice.
  replace (c - a)%nat with ((b - a) + (c - b))%nat by lia.
  rewrite firstn_plus, <- skipn_plus.
  now replace (a + (b - a))%nat with b by lia.
Qed.

Lemma slice_empty {A} (l : list A) (a : nat) : Py.slice l a a = [].
Proof. unfold Py.slice. now rewrite Nat.sub_diag. Qed.

Lemma slice_whole {A} (l : list A) : Py.slice l 0 (List.length l) = l.
Proof. unfold Py.slice. rewrite Nat.sub_0_r. apply firstn_all. Qed.

Lemma last_default (b : nat) (rest : list nat) (d d' : nat) :
  List.last (b :: rest) d = List.last (b :: rest) d'.
Proof.
  revert b. induction rest as [|c rest IH]; intros b; [reflexivity|].
  exact (IH c).
Qed.

Lemma ascending_last (a : nat) (bs : list nat) :
  ascending a bs -> (a <= List.last bs a)%nat.
Proof.
  revert a. induction bs as [|b rest IH]; intros a H; [apply Nat.le_refl|].
  destruct H as [Hab Hrest]. specialize (IH b Hrest).
  destruct rest as [|c rest]; [exact Hab|].
  change (List.last (b :: c :: rest) a) with (List.last (c :: rest) a).
  rewrite (last_default c rest a b). lia.
Qed.

(** The slices between the neighbours of an ascending list make the slice
    from its first to its last member. *)
Lemma concat_adjacent_slices {A} (l : list A) (bs : list nat) (a : nat) :
  ascending a bs ->
  concat (List.map (fun bp => Py.slice l (fst bp) (snd bp)) (adjacent (a :: bs)))
  = Py.slice l a (List.last bs a).
Proof.
  revert a. induction bs as [|b rest IH]; intros a H.
  - simpl. now rewrite slice_empty.
  - destruct H as [Hab Hrest].
    rewrite adjacent_cons, List.map_cons, concat_cons, (IH b Hrest).
    cbn [fst snd].
    pose proof (ascending_last b rest Hrest) as Hlast.
    rewrite slice_merge by assumption.
    destruct rest as [|c rest]; [reflexivity|].
    change (List.last (b :: c :: rest) a) with (List.last (c :: rest) a).
    now rewrite (last_default c rest a b).
Qed.

(** The indices the loop records ascend from its counter. *)
Lemma find_breakpoints_ascending (lines : list string) (i a : nat) :
  (a <= i)%nat ->
  ascending a (find_breakpoints lines i ++ [(i + List.length lines)%nat]).
Proof.
  revert i a. induction lines as [|line rest IH]; intros i a Hai.
  - simpl. split; [lia | exact I].
  - cbn [find_breakpoints List.length].
    replace (i + S (List.length rest))%nat
      with (S i + List.length rest)%nat by lia.
    destruct (is_from line).
    + split; [exact Hai | apply IH; lia].
    + apply IH; lia.
Qed.

Lemma split_replies_concat (lines : list string) :
  concat (split_replies lines) = lines.
Proof.
  unfold split_replies, breakpoints.
  rewrite breakpoint_pairs_adjacent, <- app_comm_cons.
  rewrite concat_adjacent_slices
    by (apply (find_breakpoints_ascending lines 0 0); lia).
  rewrite last_last. apply slice_whole.
Qed.

(** C1: for every message text, the replies of [get_replies], concatenated
    in order, are exactly the lines of the message after the separator
    lines are removed: none is dropped, none is duplicated. *)
Theorem get_replies_concat (message : string) :
  concat (get_replies message)
  = Py.split_on newline (remove_separators message).
Proof. exact (split_replies_concat (message_lines message)). Qed.

(** C10: when the first line of the message, separator lines removed,
    starts a reply, the first reply returned is empty and the replies after
    it hold all the lines. *)
Theorem get_replies_leading_empty (message first : string)
    (rest : list string) :
  message_lines message = first :: rest ->
  is_from first = true ->
  exists later : list (list string),
    get_replies message = [] :: later /\
    concat later = first :: rest.
Proof.
  intros Hlines Hfrom.
  pose proof (split_replies_concat (first :: rest)) as Hall.
  unfold get_replies. rewrite Hlines.
  unfold split_replies, breakpoints in *.
  rewrite breakpoint_pairs_adjacent in *.
  cbn [find_breakpoints] in *. rewrite Hfrom in *.
  rewrite <- !app_comm_cons, adjacent_cons, List.map_cons in *.
  cbn [fst snd] in *. rewrite slice_empty in *.
  eexists. split; [reflexivity | exact Hall].
Qed.

Lemma get_replies_leading_empty_witness :
  exists later : list (list string),
    get_replies sample_message = [] :: later /\
    concat later = ["From: A <a@x.com>"; "Hello"; "From: B <b@x.com>"; "Bye"].
Proof.
  apply (get_replies_leading_empty sample_message "From: A <a@x.com>"
           ["Hello"; "From: B <b@x.com>"; "Bye"]); reflexivity.
Defined.

(** ** The metadata extractor *)

Lemma take_take (n m : nat) (s : string) :
  (n <= m)%nat -> Py.take n (Py.take m s) = Py.take n s.
Proof.
  revert m s. induction n as [|n IH]; intros m s H; [now destruct m, s|].
  destruct m as [|m]; [lia|]. destruct s as [|c s]; [reflexivity|].
  simpl. rewrite IH by lia. reflexivity.
Qed.

(** A line has one start: two different header tests do not both hold. *)
Lemma prefix_clash (n m : nat) (p q s : string) :
  (n <= m)%nat -> String.eqb (Py.take n s) p = true ->
  String.eqb (Py.take m s) q = true -> Py.take n q = p.
Proof.
  intros H Hp Hq. apply String.eqb_eq in Hp, Hq.
  rewrite <- Hq, take_take by assumption. exact Hp.
Qed.

Ltac clash n m :=
  match goal with
  | Hp : String.eqb (Py.take n ?s) ?p = true,
    Hq : String.eqb (Py.take m ?s) ?q = true |- _ =>
      let H := fresh in
      assert (H : Py.take n q = p) by (apply (prefix_clash n m p q s); [lia | exact Hp | exact Hq]);
      vm_compute in H; discriminate H
  end.

Lemma header_tests_exclusive (line : string) :
  (is_from line = true -> is_to_cc line = false /\ is_sent line = false /\ is_subject line = false) /\
  (is_to_cc line = true -> is_sent line = false /\ is_subject line = false) /\
  (is_sent line = true -> is_subject line = false).
Proof.
  unfold is_from, is_to_cc, is_sent, is_subject.
  repeat split; intros;
    repeat match goal with
    | |- _ /\ _ => split
    | H : (_ || _) = true |- _ => apply orb_true_iff in H; destruct H
    | |- (_ || _) = false => apply orb_false_iff; split
    | |- ?b = false => destruct b eqn:?; [exfalso | reflexivity]
    end;
    first [clash 4%nat 6%nat | clash 4%nat 9%nat | clash 6%nat 9%nat
          | clash 6%nat 6%nat | clash 4%nat 4%nat].
Qed.

Section ExtractorFacts.

Variable titles : gset string.

(** The loop reads the first [11 - i] lines it is given. *)
Lemma scan_lines_fold (reply : list string) (i : nat) (md : metadata) :
  (i <= 10)%nat ->
  scan_lines titles reply i md
  = fold_left (scan_step titles) (firstn (11 - i) reply) md.
Proof.
  revert i md. induction reply as [|line rest IH]; intros i md Hi.
  - now rewrite firstn_nil.
  - replace (11 - i)%nat with (S (10 - i)) by lia.
    cbn [scan_lines firstn fold_left].
    destruct (9 <? i)%nat eqn:E.
    + apply Nat.ltb_lt in E.
      replace (10 - i)%nat with 0%nat by lia. reflexivity.
    + apply Nat.ltb_ge in E. rewrite IH by lia.
      now replace (11 - S i)%nat with (10 - i)%nat by lia.
Qed.

Lemma fold_closed_form (scanned : list string) (n : nat) :
  fold_left (scan_step titles) scanned (Metadata None None None None n)
  = headers_of titles scanned n.
Proof.
  induction scanned as [|line scanned IH] using rev_ind; [reflexivity|].
  rewrite fold_left_app. cbn [fold_left]. rewrite IH.
  unfold scan_step, scan_line, headers_of.
  rewrite rev_unit, List.filter_app. cbn [List.find List.filter].
  destruct (header_tests_exclusive line) as (Hf & Ht & Hs).
  destruct (is_from line) eqn:Ef.
  { destruct (Hf eq_refl) as (-> & -> & ->).
    cbn [sender recipients timestamp subject lines option_map].
    now rewrite app_nil_r. }
  destruct (is_to_cc line) eqn:Et.
  { destruct (Ht eq_refl) as (-> & ->).
    cbn [sender recipients timestamp subject lines].
    f_equal.
    destruct (List.filter is_to_cc scanned) as [|r found]; [reflexivity|].
    rewrite <- app_comm_cons, List.map_cons, List.map_cons, List.map_app.
    reflexivity. }
  destruct (is_sent line) eqn:Es.
  { rewrite (Hs eq_refl).
    cbn [sender recipients timestamp subject lines option_map].
    now rewrite app_nil_r. }
  destruct (is_subject line) eqn:Eb;
    cbn [sender recipients timestamp subject lines option_map];
    now rewrite app_nil_r.
Qed.

(** The result in closed form: the header values of the first eleven
    lines, and the number of lines of the reply. *)
Lemma get_metadata_closed_form (reply : list string) :
  get_metadata titles reply
  = headers_of titles (firstn 11 reply) (List.length reply).
Proof.
  unfold get_metadata. rewrite scan_lines_fold by lia.
  apply fold_closed_form.
Qed.

End ExtractorFacts.

Lemma find_is_Some {A} (p : A -> bool) (l : list A) (x : A) :
  In x l -> p x = true -> is_Some (List.find p l).
Proof.
  intros Hin Hp. destruct (List.find p l) eqn:E; [eauto|].
  rewrite (find_none p l E x Hin) in Hp. discriminate Hp.
Qed.

Lemma scanned_line (reply : list string) (k : nat) (line : string) :
  (k <= 10)%nat -> reply !! k = Some line -> In line (firstn 11 reply).
Proof.
  intros Hk Hline. apply list_elem_of_In, elem_of_take.
  exists k. split; [exact Hline | lia].
Qed.

(** C5: the header values of a reply are those of its lines at indices 0
    to 10.  A reply with the same first eleven lines has the same sender,
    recipients, time stamp and subject, whatever follows.  Among those
    eleven lines the header lines are recognized: the sender, the time
    stamp and the subject are those of the last line with their prefix, the
    recipients those of every line with theirs, and a value is absent when
    no line has its prefix. *)
Theorem get_metadata_scans_first_eleven (titles : gset string)
    (reply : list string) :
  (forall other : list string,
      firstn 11 other = firstn 11 reply ->
      same_headers (get_metadata titles other) (get_metadata titles reply)) /\
  sender (get_metadata titles reply)
  = option_map (fun line => get_contact titles (Py.drop 6 line))
               (List.find is_from (rev (firstn 11 reply))) /\
  recipients (get_metadata titles reply)
  = match List.filter is_to_cc (firstn 11 reply) with
    | [] => None
    | found =>
        Some (List.map (fun line => get_contact titles (Py.drop 4 line)) found)
    end /\
  timestamp (get_metadata titles reply)
  = option_map (Py.drop 6) (List.find is_sent (rev (firstn 11 reply))) /\
  subject (get_metadata titles reply)
  = option_map (Py.drop 9) (List.find is_subject (rev (firstn 11 reply))).
Proof.
  split.
  - intros other H. rewrite !get_metadata_closed_form, H.
    repeat split.
  - rewrite get_metadata_closed_form. repeat split.
Qed.

(** On a reply of thirteen lines: the subject at index 10 is returned, the
    subject at index 11 and the time stamp at index 12 are not. *)
Lemma get_metadata_scans_first_eleven_witness :
  same_headers (get_metadata sample_titles (firstn 11 long_reply))
               (get_metadata sample_titles long_reply) /\
  subject (get_metadata sample_titles long_reply) = Some "kept" /\
  timestamp (get_metadata sample_titles long_reply) = None.
Proof.
  destruct (get_metadata_scans_first_eleven sample_titles long_reply)
    as (Hsame & _ & _ & Htime & Hsubject).
  split; [apply Hsame; reflexivity|].
  split; [exact Hsubject | exact Htime].
Defined.

(** C6, as stated, fails: of two sender lines in the scanned range the
    second one gives the sender, not the first. *)
Lemma get_metadata_first_from_counterexample :
  is_from "From: Alice Smith <a@x.org>" = true /\
  two_senders !! 0%nat = Some "From: Alice Smith <a@x.org>" /\
  sender (get_metadata sample_titles two_senders)
  = Some (get_contact sample_titles "Bob Jones <b@y.org>") /\
  sender (get_metadata sample_titles two_senders)
  <> Some (get_contact sample_titles "Alice Smith <a@x.org>").
Proof.
  repeat split; try reflexivity. vm_compute. discriminate.
Qed.

(** C6, amended: the sender is the contact of the last line that starts
    with the sender prefix among the lines at indices 0 to 10, and absent
    when there is none; the time stamp and the subject are likewise those of
    the last such line. *)
Theorem get_metadata_last_occurrence_wins (titles : gset string)
    (reply : list string) :
  sender (get_metadata titles reply)
  = option_map (fun line => get_contact titles (Py.drop 6 line))
               (List.find is_from (rev (firstn 11 reply))) /\
  timestamp (get_metadata titles reply)
  = option_map (Py.drop 6) (List.find is_sent (rev (firstn 11 reply))) /\
  subject (get_metadata titles reply)
  = option_map (Py.drop 9) (List.find is_subject (rev (firstn 11 reply))).
Proof.
  rewrite get_metadata_closed_form. repeat split.
Qed.

(** ** The signature detector *)

Lemma tiny_bound_large : (4 <= tiny_bound)%Z.
Proof. unfold tiny_bound. apply (Z.pow_le_mono_r 2 2 1075); lia. Qed.

Lemma true_div_returns (a b : Z) :
  b <> 0%Z -> exists max_length : Q, true_div a b = inr max_length.
Proof.
  intros Hb. unfold true_div.
  destruct (b =? 0)%Z eqn:E; [apply Z.eqb_eq in E; contradiction|].
  destruct (_ <=? _)%Z; eauto.
Qed.

(** With the divisor 2 the quotient of a length that is not zero is not
    rounded to zero. *)
Lemma true_div_two (n : nat) :
  true_div (Z.of_nat (S n)) 2
  = inr (inject_Z (Z.of_nat (S n)) / inject_Z 2)%Q.
Proof.
  unfold true_div. cbn [Z.eqb].
  destruct (Z.leb_spec (Z.abs (Z.of_nat (S n)) * tiny_bound) (Z.abs 2))
    as [H|H]; [|reflexivity].
  exfalso. pose proof tiny_bound_large as Hbig.
  change (Z.abs 2) with 2%Z in H. rewrite Z.abs_eq in H by lia.
  revert H Hbig. generalize tiny_bound. intros t H Hbig. nia.
Qed.

(** A quotient that is whole is that whole number, as a float too. *)
Lemma true_div_whole (q : nat) (d : Z) :
  d <> 0%Z ->
  exists max_length : Q,
    true_div (Z.of_nat q * d) d = inr max_length /\
    (max_length == inject_Z (Z.of_nat q))%Q.
Proof.
  intros Hd. unfold true_div.
  destruct (d =? 0)%Z eqn:E; [apply Z.eqb_eq in E; contradiction|].
  destruct (Z.leb_spec (Z.abs (Z.of_nat q * d) * tiny_bound) (Z.abs d))
    as [H|H].
  - exists 0%Q. split; [reflexivity|].
    assert (Hq : q = 0%nat).
    { pose proof tiny_bound_large as Hbig.
      rewrite Z.abs_mul in H. revert H Hbig. generalize tiny_bound.
      intros t H Hbig. destruct q as [|q]; [reflexivity|]. exfalso.
      assert (0 < Z.abs d)%Z by lia.
      rewrite Z.abs_eq in H by lia. nia. }
    subst q. reflexivity.
  - eexists. split; [reflexivity|].
    rewrite inject_Z_mult. apply Qdiv_mult_l.
    change 0%Q with (inject_Z 0). rewrite inject_Z_injective. exact Hd.
Qed.

(** When the quotient is whole the limit works as documented: the search
    reads the first [q] lines from the end and no more. *)
Lemma limit_whole (j q : nat) (max_length : Q) :
  (max_length == inject_Z (Z.of_nat q))%Q ->
  Qeq_bool (inject_Z (Z.of_nat j)) max_length = (j =? q)%nat.
Proof.
  intros Hmax. apply eq_true_iff_eq.
  rewrite Qeq_bool_iff, Nat.eqb_eq, Hmax, inject_Z_injective. lia.
Qed.

Lemma search_whole_limit (titles : gset string) (reply : list string)
    (sender_ : contact) (q : nat) (max_length : Q)
    (reply_reversed : list string) (i j : nat) :
  (max_length == inject_Z (Z.of_nat q))%Q -> (j <= q)%nat ->
  search titles reply sender_ max_length reply_reversed i j
  = search titles reply sender_ max_length
           (firstn (q - j) reply_reversed) i j.
Proof.
  intros Hmax. revert i j.
  induction reply_reversed as [|line rest IH]; intros i j Hj.
  - now rewrite firstn_nil.
  - destruct (Nat.eq_dec j q) as [->|Hne].
    + rewrite Nat.sub_diag. cbn [firstn search].
      now rewrite (limit_whole q q), Nat.eqb_refl.
    + replace (q - j)%nat with (S (q - (j + 1))) by lia.
      cbn [firstn search]. rewrite (limit_whole j q) by assumption.
      rewrite (IH (i - 1)%nat (j + 1)%nat) by lia. reflexivity.
Qed.

Lemma get_signature_whole_quotient (titles : gset string)
    (reply : list string) (sender_ : contact) (q : nat) (d : Z) :
  d <> 0%Z -> Z.of_nat (List.length reply) = (Z.of_nat q * d)%Z ->
  exists max_length : Q,
    get_signature titles reply sender_ d
    = inr (search titles reply sender_ max_length
                  (firstn q (rev reply)) (List.length reply) 0).
Proof.
  intros Hd Hlen. unfold get_signature.
  rewrite List.length_rev, Hlen.
  destruct (true_div_whole q d Hd) as (max_length & -> & Hmax).
  exists max_length.
  rewrite (search_whole_limit _ _ _ q max_length) by (auto; lia).
  now rewrite Nat.sub_0_r.
Qed.

(** C2, on the code: with the default divisor and a reply of three lines
    the limit is one line from the end, and the detector reads all three
    and starts the signature at the first: the quotient 3/2 is not whole,
    so the counter never equals it. *)
Theorem get_signature_odd_length_unbounded :
  get_signature sample_titles three_lines john_smith 2
  = inr (SignatureMetadata
           true
           (Some ("John Smith" +:+ eol +:+ "see you on Monday." +:+ eol +:+ "bye"))
           (Some EmptyString)
           false).
Proof. vm_compute. reflexivity. Qed.

(** A reply without lines has no signature. *)
Lemma get_signature_empty_reply (titles : gset string) (sender_ : contact) :
  get_signature titles [] sender_ 2 = inr no_signature.
Proof. reflexivity. Qed.

(** C7, on the code: a reply of one line that is the sender's name is
    returned as a signature, for the same reason: the quotient 1/2 is not
    whole and the limit is never met. *)
Theorem get_signature_one_line_signed :
  get_signature sample_titles one_line john_smith 2
  = inr (SignatureMetadata true (Some "John Smith") (Some EmptyString) false).
Proof. vm_compute. reflexivity. Qed.

(** C3, as stated, fails: with a negative divisor no error is raised. *)
Lemma get_signature_negative_divisor_counterexample :
  get_signature sample_titles signed_reply john_smith (-1)
  = inr (SignatureMetadata
           true (Some "John Smith")
           (Some ("Hello Carol," +:+ eol +:+ "see you on Monday." +:+ eol +:+ "Thanks,"))
           false).
Proof. vm_compute. reflexivity. Qed.

(** C3, amended: the detector raises exactly when the divisor is zero, and
    the error is the division's; with any other divisor, a negative one
    too, it returns a result. *)
Theorem get_signature_raises_on_zero_only (titles : gset string)
    (reply : list string) (sender_ : contact) :
  get_signature titles reply sender_ 0 = inl ZeroDivisionError /\
  (forall length_divisor : Z,
      length_divisor <> 0%Z ->
      exists result : signature_metadata,
        get_signature titles reply sender_ length_divisor = inr result).
Proof.
  split; [reflexivity|].
  intros d Hd. unfold get_signature.
  destruct (true_div_returns (Z.of_nat (List.length (rev reply))) d Hd)
    as [max_length ->].
  eexists. reflexivity.
Qed.

Lemma get_signature_raises_on_zero_only_witness :
  get_signature sample_titles signed_reply john_smith 0
  = inl ZeroDivisionError /\
  exists result : signature_metadata,
    get_signature sample_titles signed_reply john_smith (-1) = inr result.
Proof.
  split.
  - apply (proj1 (get_signature_raises_on_zero_only
                    sample_titles signed_reply john_smith)).
  - apply (proj2 (get_signature_raises_on_zero_only
                    sample_titles signed_reply john_smith) (-1)%Z).
    lia.
Defined.

(** The limit of a reply that is not empty is not zero. *)
Lemma limit_not_zero (n : nat) :
  Qeq_bool (inject_Z (Z.of_nat 0)) (inject_Z (Z.of_nat (S n)) / inject_Z 2)
  = false.
Proof.
  destruct (Qeq_bool _ _) eqn:E; [|reflexivity].
  apply Qeq_bool_iff in E. unfold Qeq in E. simpl in E. lia.
Qed.

(** C4, as stated, fails: the signature is the line of the name alone; the
    line before it stays in the text of the reply. *)
Lemma get_signature_thanks_counterexample :
  name john_smith = "John Smith" /\
  get_signature sample_titles signed_reply john_smith 2
  = inr (SignatureMetadata
           true (Some "John Smith")
           (Some ("Hello Carol," +:+ eol +:+ "see you on Monday." +:+ eol +:+ "Thanks,"))
           false) /\
  Some "John Smith" <> Some ("Thanks," +:+ eol +:+ "John Smith").
Proof.
  split; [reflexivity|]. split; [vm_compute; reflexivity|].
  vm_compute. discriminate.
Qed.

(** C4, amended: for a sender whose sanitized name is John Smith and a
    reply that ends with the lines Thanks, and John Smith, the detector
    with the default divisor finds a signature; the signature is the last
    line alone, and the text of the reply is every line above it, the line
    Thanks, included, joined by newlines and stripped. *)
Theorem get_signature_name_line (titles : gset string) (original : string)
    (sender_ : contact) (above : list string) :
  sanitize_name titles original = "John Smith" ->
  name sender_ = "John Smith" ->
  exists result : signature_metadata,
    get_signature titles (above ++ ["Thanks,"; "John Smith"]) sender_ 2
    = inr result /\
    has_signature result = true /\
    signature result = Some "John Smith" /\
    reply_text result
    = Some (Py.strip (Py.join eol (above ++ ["Thanks,"]))).
Proof.
  intros Hsan Hname.
  assert (Hfix : sanitize_name titles "John Smith" = "John Smith")
    by (rewrite <- Hsan; apply sanitize_name_fixed).
  unfold get_signature.
  rewrite List.length_rev, List.length_app. cbn [List.length].
  replace (List.length above + 2)%nat with (S (S (List.length above))) by lia.
  rewrite true_div_two.
  rewrite rev_app_distr. cbn [rev app search].
  rewrite limit_not_zero, Hfix, Hname.
  assert (Htokens : Py.split "John Smith" = ["John"; "Smith"])
    by (vm_compute; reflexivity).
  rewrite Htokens.
  assert (Hfound :
            List.filter
              (fun t => Py.contains (Py.lower t) (Py.lower "John Smith"))
              ["John"; "Smith"] = ["John"; "Smith"])
    by (vm_compute; reflexivity).
  rewrite Hfound, bool_decide_eq_true_2 by reflexivity.
  change ((1 <? List.length ["John"; "Smith"])%nat && true) with true.
  cbv iota.
  eexists. split; [reflexivity|].
  cbn [found_at has_signature signature reply_text].
  replace (S (S (List.length above)) - 1)%nat
    with (List.length (above ++ ["Thanks,"]))
    by (rewrite List.length_app; simpl; lia).
  change (above ++ ["Thanks,"; "John Smith"])
    with (above ++ ["Thanks,"] ++ ["John Smith"]).
  rewrite app_assoc, drop_app_length, take_app_length.
  repeat split.
Qed.

Lemma get_signature_name_line_witness :
  exists result : signature_metadata,
    get_signature sample_titles
      (["Hello Carol,"; "see you on Monday."] ++ ["Thanks,"; "John Smith"])
      john_smith 2
    = inr result /\
    has_signature result = true /\
    signature result = Some "John Smith" /\
    reply_text result
    = Some (Py.strip (Py.join eol
              (["Hello Carol,"; "see you on Monday."] ++ ["Thanks,"]))).
Proof.
  apply (get_signature_name_line sample_titles
           "Brigadier General John A. B. C. Smith" john_smith
           ["Hello Carol,"; "see you on Monday."]);
    vm_compute; reflexivity.
Defined.

(** * Further properties of the code *)

(** ** Tokens of [split] *)

Lemma every_append (p : ascii -> bool) (s t : string) :
  every p (s +:+ t) = every p s && every p t.
Proof.
  induction s as [|c s IH]; [reflexivity|].
  rewrite append_cons. simpl. now rewrite IH, andb_assoc.
Qed.

Lemma split_from_not_empty (s cur : string) :
  Forall (fun t => Py.is_empty t = false) (Py.split_from cur s).
Proof.
  revert cur. induction s as [|c s IH]; intros cur; simpl.
  - destruct (Py.is_empty cur) eqn:E; repeat constructor; exact E.
  - destruct (Py.isspace c); [|apply IH].
    destruct (Py.is_empty cur) eqn:E; [apply IH|].
    constructor; [exact E | apply IH].
Qed.

(** The tokens are made of the characters of the text that are not white
    space. *)
Lemma split_from_every (q : ascii -> bool) (s cur : string) :
  every q cur = true ->
  every (fun c => Py.isspace c || q c) s = true ->
  Forall (fun t => every q t = true) (Py.split_from cur s).
Proof.
  revert cur. induction s as [|c s IH]; intros cur Hcur Hs; simpl.
  - destruct (Py.is_empty cur); repeat constructor; exact Hcur.
  - simpl in Hs. apply andb_true_iff in Hs. destruct Hs as [Hc Hs].
    destruct (Py.isspace c) eqn:E.
    + destruct (Py.is_empty cur); [|constructor; [exact Hcur|]];
        now apply IH.
    + apply IH; [|exact Hs].
      rewrite every_append, Hcur. simpl. simpl in Hc. now rewrite Hc.
Qed.

Lemma every_weaken (p q : ascii -> bool) (s : string) :
  (forall c, p c = true -> q c = true) ->
  every p s = true -> every q s = true.
Proof.
  intros Hpq. induction s as [|c s IH]; [reflexivity|]. simpl.
  intros H. apply andb_true_iff in H. destruct H as [Hc Hs].
  now rewrite (Hpq c Hc), IH.
Qed.

Lemma split_every (q : ascii -> bool) (s : string) :
  every q s = true -> Forall (fun t => every q t = true) (Py.split s).
Proof.
  intros H. apply split_from_every; [reflexivity|].
  apply (every_weaken q); [|exact H].
  intros c Hc. rewrite Hc. apply orb_true_r.
Qed.

Lemma split_not_space (s : string) :
  Forall (fun t => every not_space t = true) (Py.split s).
Proof.
  apply split_from_every; [reflexivity|].
  induction s as [|c s IH]; [reflexivity|]. simpl. rewrite IH.
  unfold not_space. now destruct (Py.isspace c).
Qed.

(** ** The name sanitizer and the title set *)

(** X1: the sanitized form of a name of code points below 128 is in normal
    form: its tokens are made of letters, none is its own upper case, none
    is a title, and they are separated by single spaces with nothing before
    or after. *)
Theorem sanitize_name_normal_form (titles : gset string) (s : string) :
  every Py.is_ascii s = true ->
  Forall (clean titles) (Py.split (sanitize_name titles s)) /\
  Py.join " " (Py.split (sanitize_name titles s)) = sanitize_name titles s.
Proof.
  intros _.
  pose proof (sanitize_parts_clean titles (Py.split s)) as H.
  unfold sanitize_name at 1 2.
  rewrite (split_join titles _ H). split; [exact H | reflexivity].
Qed.

Lemma sanitize_name_normal_form_witness :
  Forall (clean sample_titles)
         (Py.split (sanitize_name sample_titles
                      "Brigadier General John A. B. C. Smith")) /\
  Py.join " " (Py.split (sanitize_name sample_titles
                           "Brigadier General John A. B. C. Smith"))
  = sanitize_name sample_titles "Brigadier General John A. B. C. Smith".
Proof.
  apply (sanitize_name_normal_form sample_titles
           "Brigadier General John A. B. C. Smith").
  reflexivity.
Defined.

Lemma every_keep_other (p q : ascii -> bool) (s : string) :
  every q s = true -> every q (Py.keep p s) = true.
Proof.
  induction s as [|c s IH]; [reflexivity|]. simpl.
  intros H. apply andb_true_iff in H. destruct H as [Hc Hs].
  destruct (p c); [simpl; rewrite Hc|]; now apply IH.
Qed.

Lemma upper_not_small (s : string) :
  every not_small s = true -> Py.upper s = s.
Proof.
  unfold Py.upper.
  induction s as [|c s IH]; [reflexivity|]. simpl.
  intros H. apply andb_true_iff in H. destruct H as [Hc Hs].
  rewrite (IH Hs). unfold Py.upper_char, not_small in *.
  now destruct (Py.between 97 122 (Py.code c)).
Qed.

Lemma sanitize_parts_not_small (titles : gset string) (parts : list string) :
  Forall (fun t => every not_small t = true) parts ->
  sanitize_parts titles parts = [].
Proof.
  induction 1 as [|t parts Ht _ IH]; [reflexivity|]. simpl.
  rewrite (upper_not_small _ (every_keep_other Py.isalpha _ _ Ht)).
  now rewrite String.eqb_refl.
Qed.

(** X2: a name of code points below 128 without a small letter, so one
    written in capitals, digits and signs only, is erased whole: every
    token is taken for an acronym. *)
Theorem sanitize_name_capitals_erased (titles : gset string) (s : string) :
  every Py.is_ascii s = true ->
  every not_small s = true -> sanitize_name titles s = EmptyString.
Proof.
  intros _ H. unfold sanitize_name.
  now rewrite (sanitize_parts_not_small titles _ (split_every _ _ H)).
Qed.

Lemma sanitize_name_capitals_erased_witness :
  sanitize_name sample_titles "JOHN Q. SMITH 3RD" = EmptyString.
Proof.
  apply (sanitize_name_capitals_erased sample_titles "JOHN Q. SMITH 3RD");
    reflexivity.
Defined.

(** X3: a title of code points below 128 that holds a character other than
    a letter, or that is its own upper case, never removes a token: the set
    without it sanitizes every name of such code points alike. *)
Theorem sanitize_name_dead_title (titles : gset string) (t s : string) :
  every Py.is_ascii t = true -> every Py.is_ascii s = true ->
  every Py.isalpha t = false \/ Py.upper t = t ->
  sanitize_name (titles ∖ {[t]}) s = sanitize_name titles s.
Proof.
  intros _ _ Ht. unfold sanitize_name. f_equal.
  induction (Py.split s) as [|part parts IH]; [reflexivity|]. simpl.
  destruct (String.eqb _ _) eqn:Eu; [exact IH|].
  assert (Hne : Py.keep Py.isalpha part <> t).
  { intros <-. destruct Ht as [Ht|Ht].
    - now rewrite every_keep in Ht.
    - rewrite Ht, String.eqb_refl in Eu. discriminate Eu. }
  rewrite IH.
  destruct (bool_decide (_ ∈ titles)) eqn:Et.
  - apply bool_decide_eq_true in Et.
    rewrite bool_decide_eq_true_2; [reflexivity|].
    apply elem_of_difference. split; [exact Et|].
    rewrite elem_of_singleton. exact Hne.
  - apply bool_decide_eq_false in Et.
    rewrite bool_decide_eq_false_2; [reflexivity|].
    intros Hin. apply elem_of_difference in Hin. tauto.
Qed.

Lemma sanitize_name_dead_title_witness :
  sanitize_name (list_to_set ["Dr."; "Jr"] ∖ {["Dr."]}) "Dr. John Smith Jr"
  = sanitize_name (list_to_set ["Dr."; "Jr"]) "Dr. John Smith Jr".
Proof.
  apply (sanitize_name_dead_title (list_to_set ["Dr."; "Jr"]) "Dr."
           "Dr. John Smith Jr"); [reflexivity | reflexivity |].
  left. reflexivity.
Defined.

(** X4: a member of the title set is not empty, holds no white space and
    does not begin with the comment mark. *)
Theorem TITLES_members (titles_txt t : string) :
  t ∈ TITLES titles_txt ->
  Py.is_empty t = false /\ every not_space t = true /\
  is_comment_token t = false.
Proof.
  intros H. apply elem_of_TITLES in H. destruct H as [Hin Hc].
  pose proof (proj1 (List.Forall_forall _ _)
                (split_from_not_empty titles_txt EmptyString)) as Hne.
  pose proof (proj1 (List.Forall_forall _ _)
                (split_not_space titles_txt)) as Hns.
  repeat split; [apply Hne | apply Hns | exact Hc]; exact Hin.
Qed.

Lemma TITLES_members_witness :
  Py.is_empty "Brigadier" = false /\ every not_space "Brigadier" = true /\
  is_comment_token "Brigadier" = false.
Proof.
  apply (TITLES_members sample_titles_txt "Brigadier").
  apply elem_of_TITLES. split; [vm_compute; tauto | reflexivity].
Defined.

(** ** The contact parser *)

Lemma rfind_none (p : ascii -> bool) (s : string) :
  every (fun c => negb (p c)) s = true -> rfind p s = None.
Proof.
  induction s as [|c s IH]; [reflexivity|]. simpl.
  intros H. apply andb_true_iff in H. destruct H as [Hc Hs].
  rewrite (IH Hs). now destruct (p c).
Qed.

Lemma rfind_last (p : ascii -> bool) (s t : string) (c : ascii) :
  p c = true -> every (fun c => negb (p c)) t = true ->
  rfind p (s +:+ String c t) = Some (String.length s).
Proof.
  intros Hc Ht. induction s as [|d s IH].
  - change (EmptyString +:+ String c t) with (String c t). simpl.
    now rewrite (rfind_none p t Ht), Hc.
  - rewrite append_cons. simpl. now rewrite IH.
Qed.

Lemma take_append (s t : string) : Py.take (String.length s) (s +:+ t) = s.
Proof.
  induction s as [|c s IH]; [now destruct t|].
  rewrite append_cons. simpl. now rewrite IH.
Qed.

Lemma drop_append (s t : string) : Py.drop (String.length s) (s +:+ t) = t.
Proof.
  induction s as [|c s IH]; [now destruct t|].
  rewrite append_cons. simpl. exact IH.
Qed.

Lemma every_take (q : ascii -> bool) (n : nat) (s : string) :
  every q s = true -> every q (Py.take n s) = true.
Proof.
  revert s. induction n as [|n IH]; intros [|c s]; try reflexivity. simpl.
  intros H. apply andb_true_iff in H. destruct H as [Hc Hs].
  now rewrite Hc, IH.
Qed.

(** The first piece of [split_on]: what stands before the first separator. *)
Lemma split_on_hd_every (q : ascii -> bool) (sep : ascii) (s : string) :
  every q s = true ->
  every q (hd EmptyString (Py.split_on sep s)) = true.
Proof.
  induction s as [|c s IH]; [reflexivity|]. simpl.
  intros H. apply andb_true_iff in H. destruct H as [Hc Hs].
  destruct (Ascii.eqb c sep); [reflexivity|].
  specialize (IH Hs).
  destruct (Py.split_on sep s) as [|t ts]; simpl in *; now rewrite Hc.
Qed.

Lemma split_on_hd_append (sep : ascii) (s t : string) :
  every (fun c => negb (Ascii.eqb c sep)) s = true ->
  hd EmptyString (Py.split_on sep (s +:+ t))
  = s +:+ hd EmptyString (Py.split_on sep t).
Proof.
  induction s as [|c s IH]; [reflexivity|].
  rewrite !append_cons. simpl.
  intros H. apply andb_true_iff in H. destruct H as [Hc Hs].
  apply negb_true_iff in Hc. rewrite Hc.
  specialize (IH Hs).
  destruct (Py.split_on sep (s +:+ t)) as [|u us]; simpl in *;
    now rewrite <- IH.
Qed.

(** X5: a line without a closing bracket, or without an opening one, is
    taken whole as the name: the original name is the line as it stands,
    not stripped, and there is no address. *)
Theorem get_contact_without_brackets (titles : gset string) (line : string) :
  every (fun c => negb (is_close c)) line = true \/
  every (fun c => negb (is_open c)) line = true ->
  get_contact titles line = Contact line (sanitize_name titles line) None.
Proof.
  intros H. unfold get_contact, match_contact.
  destruct H as [H|H].
  - now rewrite (rfind_none _ _ (split_on_hd_every _ newline _ H)).
  - destruct (rfind is_close _) as [close|]; [|reflexivity].
    now rewrite (rfind_none _ _
                   (every_take _ close _ (split_on_hd_every _ newline _ H))).
Qed.

Lemma get_contact_without_brackets_witness :
  get_contact sample_titles "  Edgar Allan Poe "
  = Contact "  Edgar Allan Poe "
            (sanitize_name sample_titles "  Edgar Allan Poe ") None.
Proof.
  apply (get_contact_without_brackets sample_titles "  Edgar Allan Poe ").
  left. reflexivity.
Defined.

Lemma bracket_not_newline (c : ascii) :
  is_open c = true \/ is_close c = true -> Ascii.eqb c newline = false.
Proof.
  unfold is_open, is_close.
  intros [H|H]; apply orb_true_iff in H; destruct H as [H|H];
    apply Ascii.eqb_eq in H; subst c; reflexivity.
Qed.

Lemma append_assoc (s t u : string) : (s +:+ t) +:+ u = s +:+ t +:+ u.
Proof.
  induction s as [|c s IH]; [reflexivity | now rewrite !append_cons, IH].
Qed.

(** X6: the two groups of the pattern.  On a line made of a name without a
    newline, an opening bracket, an address without a newline or an opening
    bracket, a closing bracket and a rest without a closing bracket, the
    contact has the name stripped, its sanitized form, and the address
    stripped with every mailto: prefix text removed. *)
Theorem get_contact_bracketed (titles : gset string)
    (n a rest : string) (o c : ascii) :
  is_open o = true -> is_close c = true ->
  every (fun x => negb (Ascii.eqb x newline)) n = true ->
  every (fun x => negb (Ascii.eqb x newline)) a = true ->
  every (fun x => negb (is_open x)) a = true ->
  every (fun x => negb (is_close x)) rest = true ->
  get_contact titles (n +:+ String o (a +:+ String c rest))
  = Contact (Py.strip n) (sanitize_name titles (Py.strip n))
            (Some (Py.remove "mailto:" (Py.strip a))).
Proof.
  intros Ho Hc Hn Ha Hao Hrest. unfold get_contact, match_contact.
  assert (Hreach :
            hd EmptyString
               (Py.split_on newline (n +:+ String o (a +:+ String c rest)))
            = (n +:+ String o a)
                +:+ String c (hd EmptyString (Py.split_on newline rest))).
  { replace (n +:+ String o (a +:+ String c rest))
      with (((n +:+ String o a) +:+ String c EmptyString) +:+ rest).
    - rewrite split_on_hd_append.
      + now rewrite append_snoc.
      + rewrite !every_append, Hn. simpl.
        rewrite Ha, (bracket_not_newline o), (bracket_not_newline c);
          auto.
    - now rewrite append_snoc, append_assoc, append_cons. }
  rewrite Hreach.
  rewrite (rfind_last is_close) by
    (try exact Hc; now apply split_on_hd_every).
  rewrite take_append.
  rewrite (rfind_last is_open) by assumption.
  rewrite take_append.
  change (S (String.length n))
    with (String.length (String o EmptyString) + String.length n)%nat.
  replace (n +:+ String o a) with ((n +:+ String o EmptyString) +:+ a)
    by now rewrite append_snoc.
  replace (String.length (String o EmptyString) + String.length n)%nat
    with (String.length (n +:+ String o EmptyString)).
  - now rewrite drop_append.
  - clear. induction n as [|d n IH]; [reflexivity|].
    rewrite append_cons. simpl. now rewrite IH.
Qed.

Lemma get_contact_bracketed_witness :
  get_contact sample_titles
    ("Poe, Edgar Allan " +:+ String "<" ("mailto:eapoe@uva.edu" +:+ String ">" ";"))
  = Contact (Py.strip "Poe, Edgar Allan ")
            (sanitize_name sample_titles (Py.strip "Poe, Edgar Allan "))
            (Some (Py.remove "mailto:" (Py.strip "mailto:eapoe@uva.edu"))).
Proof.
  apply (get_contact_bracketed sample_titles "Poe, Edgar Allan "
           "mailto:eapoe@uva.edu" ";" "<" ">"); reflexivity.
Defined.

(** ** The reply splitter *)

Lemma slice_middle {A} (pre cur post : list A) :
  Py.slice (pre ++ cur ++ post) (List.length pre)
           (List.length pre + List.length cur) = cur.
Proof.
  unfold Py.slice.
  replace (List.length pre + List.length cur - List.length pre)%nat
    with (List.length cur) by lia.
  now rewrite drop_app_length, take_app_length.
Qed.

(** The slices between the breakpoints are the replies of one pass over
    the lines. *)
Lemma slices_one_pass (lines pre cur : list string) :
  List.map (fun bp => Py.slice (pre ++ cur ++ lines) (fst bp) (snd bp))
    (adjacent
       (List.length pre
        :: find_breakpoints lines (List.length pre + List.length cur)
        ++ [(List.length pre + List.length cur + List.length lines)%nat]))
  = split_at_from cur lines.
Proof.
  revert pre cur. induction lines as [|line rest IH]; intros pre cur.
  - cbn [find_breakpoints app adjacent List.map fst snd split_at_from
         List.length].
    rewrite Nat.add_0_r. now rewrite slice_middle.
  - cbn [find_breakpoints split_at_from]. destruct (is_from line).
    + rewrite <- app_comm_cons, adjacent_cons, List.map_cons.
      cbn [fst snd]. rewrite slice_middle. f_equal.
      specialize (IH (pre ++ cur) [line]).
      rewrite <- !app_assoc in IH. cbn [app] in IH.
      rewrite List.length_app in IH. cbn [List.length] in IH.
      rewrite <- IH.
      replace (List.length pre + List.length cur + 1)%nat
        with (S (List.length pre + List.length cur)) by lia.
      replace (List.length pre + List.length cur + List.length (line :: rest))%nat
        with (S (List.length pre + List.length cur) + List.length rest)%nat
        by (cbn [List.length]; lia).
      reflexivity.
    + specialize (IH pre (cur ++ [line])).
      rewrite <- !app_assoc in IH. cbn [app] in IH.
      rewrite List.length_app in IH. cbn [List.length] in IH.
      rewrite <- IH.
      replace (List.length pre + (List.length cur + 1))%nat
        with (S (List.length pre + List.length cur)) by lia.
      replace (List.length pre + List.length cur + List.length (line :: rest))%nat
        with (S (List.length pre + List.length cur) + List.length rest)%nat
        by (cbn [List.length]; lia).
      reflexivity.
Qed.

Lemma split_replies_one_pass (lines : list string) :
  split_replies lines = split_at_from [] lines.
Proof.
  unfold split_replies, breakpoints.
  rewrite breakpoint_pairs_adjacent.
  exact (slices_one_pass lines [] []).
Qed.

Lemma split_at_from_length (lines cur : list string) :
  List.length (split_at_from cur lines)
  = S (List.length (List.filter is_from lines)).
Proof.
  revert cur. induction lines as [|line rest IH]; intros cur;
    [reflexivity|].
  cbn [split_at_from List.filter]. destruct (is_from line); [|apply IH].
  cbn [List.length]. now rewrite IH.
Qed.

Lemma split_at_from_shape (lines cur : list string) :
  exists (tail : list string) (later : list (list string)),
    split_at_from cur lines = (cur ++ tail) :: later /\
    Forall (fun l => is_from l = false) tail /\
    Forall headed_reply later.
Proof.
  revert cur. induction lines as [|line rest IH]; intros cur.
  - exists [], []. rewrite app_nil_r. repeat constructor.
  - cbn [split_at_from]. destruct (is_from line) eqn:E.
    + destruct (IH [line]) as (tail & later & -> & Htail & Hlater).
      exists [], (([line] ++ tail) :: later). rewrite app_nil_r.
      repeat split; [constructor|].
      constructor; [|exact Hlater]. exists line, tail. auto.
    + destruct (IH (cur ++ [line])) as (tail & later & -> & Htail & Hlater).
      exists (line :: tail), later. rewrite <- app_assoc.
      repeat split; [constructor|]; assumption.
Qed.

(** X7: there is one reply more than there are lines that start with the
    sender prefix, separator lines removed. *)
Theorem get_replies_count (message : string) :
  List.length (get_replies message)
  = S (List.length (List.filter is_from (message_lines message))).
Proof.
  unfold get_replies. rewrite split_replies_one_pass.
  apply split_at_from_length.
Qed.

Lemma get_replies_shape (message : string) :
  exists (first : list string) (later : list (list string)),
    get_replies message = first :: later /\
    Forall (fun l => is_from l = false) first /\
    Forall headed_reply later.
Proof.
  unfold get_replies. rewrite split_replies_one_pass.
  destruct (split_at_from_shape (message_lines message) [])
    as (tail & later & H & Htail & Hlater).
  exists tail, later. auto.
Qed.

(** X8: the first reply holds no line that starts with the sender prefix;
    every later reply begins with such a line and holds no other. *)
Theorem get_replies_boundaries (message : string) :
  exists (first : list string) (later : list (list string)),
    get_replies message = first :: later /\
    Forall (fun l => is_from l = false) first /\
    Forall headed_reply later.
Proof. exact (get_replies_shape message). Qed.

(** X9: a message without a line that starts with the sender prefix is one
    reply, all of its lines. *)
Theorem get_replies_single (message : string) :
  Forall (fun l => is_from l = false) (message_lines message) ->
  get_replies message = [message_lines message].
Proof.
  intros H. unfold get_replies. rewrite split_replies_one_pass.
  change (message_lines message) with ([] ++ message_lines message) at 2.
  generalize (@nil string) as cur.
  induction H as [|line rest Hline _ IH]; intros cur.
  - now rewrite app_nil_r.
  - cbn [split_at_from]. rewrite Hline, IH, <- app_assoc. reflexivity.
Qed.

Lemma get_replies_single_witness :
  get_replies ("Hello," +:+ eol +:+ "no headers here")
  = [message_lines ("Hello," +:+ eol +:+ "no headers here")].
Proof.
  apply (get_replies_single ("Hello," +:+ eol +:+ "no headers here")).
  vm_compute. repeat constructor.
Defined.

(** ** The removal of separator lines *)

Lemma drop_while_run (p : ascii -> bool) (run rest : string) (c : ascii) :
  every p run = true -> p c = false ->
  drop_while p (run +:+ String c rest) = String c rest.
Proof.
  intros Hrun Hc. induction run as [|d run IH].
  - change (EmptyString +:+ String c rest) with (String c rest).
    simpl. now rewrite Hc.
  - rewrite append_cons. simpl. simpl in Hrun.
    apply andb_true_iff in Hrun. destruct Hrun as [Hd Hrun].
    rewrite Hd. now apply IH.
Qed.

Lemma every_dashes (k : nat) : every is_dash (dashes k) = true.
Proof. induction k as [|k IH]; [reflexivity | exact IH]. Qed.

Lemma match_separator_line (a b : nat) (rest : string) :
  match_separator (separator_line a b +:+ rest) = Some rest.
Proof.
  unfold separator_line.
  rewrite !append_assoc.
  change (dashes (S (S a)) +:+ "Original Message" +:+ dashes (S b) +:+ eol +:+ rest)
    with (String "-" (String "-"
            (dashes a +:+ String "O" ("riginal Message" +:+ dashes (S b) +:+ eol +:+ rest)))).
  cbn [match_separator some_of]. change (Ascii.eqb "-" newline) with false.
  change (is_dash "-") with true. cbv iota.
  rewrite (drop_while_run is_dash (dashes a) _ "O" (every_dashes a) eq_refl).
  change (String "O" ("riginal Message" +:+ dashes (S b) +:+ eol +:+ rest))
    with ("Original Message" +:+ dashes (S b) +:+ eol +:+ rest).
  change (drop_while Py.isspace ("Original Message" +:+ dashes (S b) +:+ eol +:+ rest))
    with ("Original Message" +:+ dashes (S b) +:+ eol +:+ rest).
  change (Py.take 16 ("Original Message" +:+ dashes (S b) +:+ eol +:+ rest))
    with ("Original Message").
  change (String.eqb (Py.lower "Original Message") "original message") with true.
  cbv iota.
  change (Py.drop 16 ("Original Message" +:+ dashes (S b) +:+ eol +:+ rest))
    with (String "-" (dashes b +:+ String newline rest)).
  change (some_of is_dash
            (drop_while Py.isspace
               (String "-" (dashes b +:+ String newline rest))))
    with (Some (drop_while is_dash (dashes b +:+ String newline rest))).
  rewrite (drop_while_run is_dash (dashes b) _ newline (every_dashes b) eq_refl).
  reflexivity.
Qed.

Lemma length_append (s t : string) :
  String.length (s +:+ t) = (String.length s + String.length t)%nat.
Proof.
  induction s as [|c s IH]; [reflexivity|].
  rewrite append_cons. simpl. now rewrite IH.
Qed.

Lemma remove_separators_skip (mid rest : string) :
  remove_separators_from (String.length mid) (mid +:+ rest)
  = remove_separators_from 0 rest.
Proof.
  induction mid as [|c mid IH]; [reflexivity|].
  rewrite append_cons. exact IH.
Qed.

Lemma no_dash_no_match (c d : ascii) (s : string) :
  is_dash d = false -> match_separator (String c (String d s)) = None.
Proof.
  intros Hd. cbn [match_separator some_of]. rewrite Hd.
  now destruct (Ascii.eqb c newline).
Qed.

(** X10: a text without a dash holds no separator line and is left as it
    is. *)
Theorem remove_separators_no_dash (message : string) :
  every (fun c => negb (is_dash c)) message = true ->
  remove_separators message = message.
Proof.
  unfold remove_separators.
  induction message as [|c s IH]; [reflexivity|].
  intros H. simpl in H. apply andb_true_iff in H. destruct H as [_ Hs].
  cbn [remove_separators_from].
  assert (Hnone : match_separator (String c s) = None).
  { destruct s as [|d s'].
    - cbn [match_separator some_of]. now destruct (Ascii.eqb c newline).
    - simpl in Hs. apply andb_true_iff in Hs. destruct Hs as [Hd _].
      apply negb_true_iff in Hd. now apply no_dash_no_match. }
  now rewrite Hnone, (IH Hs).
Qed.

Lemma remove_separators_no_dash_witness :
  remove_separators ("From: A <a@x.com>" +:+ eol +:+ "Hello")
  = "From: A <a@x.com>" +:+ eol +:+ "Hello".
Proof.
  apply (remove_separators_no_dash
           ("From: A <a@x.com>" +:+ eol +:+ "Hello")).
  reflexivity.
Defined.

Lemma remove_separators_at_start (a b : nat) (rest : string) :
  remove_separators (separator_line a b +:+ rest) = remove_separators rest.
Proof.
  unfold remove_separators.
  pose proof (match_separator_line a b rest) as Hmatch.
  set (mid := String "-" (dashes a) +:+ "Original Message"
                +:+ dashes (S b) +:+ eol).
  assert (Hsep : separator_line a b +:+ rest = String "-" (mid +:+ rest)).
  { unfold separator_line, mid. now rewrite !append_assoc. }
  rewrite Hsep in *. cbn [remove_separators_from]. rewrite Hmatch.
  replace (String.length (mid +:+ rest) - String.length rest)%nat
    with (String.length mid) by (rewrite length_append; lia).
  apply remove_separators_skip.
Qed.

(** X11: a separator line that follows whole lines without a dash is
    removed with its newline, whatever the numbers of its dashes; the lines
    before it stay as they are and the removal goes on after it. *)
Theorem remove_separators_line (pre rest : string) (a b : nat) :
  whole_lines pre = true ->
  every (fun c => negb (is_dash c)) pre = true ->
  remove_separators (pre +:+ separator_line a b +:+ rest)
  = pre +:+ remove_separators rest.
Proof.
  induction pre as [|c pre IH]; intros Hwhole Hdash.
  - apply remove_separators_at_start.
  - rewrite !append_cons. unfold remove_separators in *.
    cbn [remove_separators_from].
    simpl in Hdash. apply andb_true_iff in Hdash.
    destruct Hdash as [_ Hdash].
    assert (Hnone :
              match_separator
                (String c (pre +:+ separator_line a b +:+ rest)) = None).
    { destruct pre as [|d pre'].
      - cbn [whole_lines] in Hwhole.
        cbn [match_separator]. now rewrite Hwhole.
      - rewrite append_cons. apply no_dash_no_match.
        simpl in Hdash. apply andb_true_iff in Hdash.
        now apply negb_true_iff. }
    rewrite Hnone. f_equal. apply IH; [|exact Hdash].
    destruct pre; [reflexivity | exact Hwhole].
Qed.

Lemma remove_separators_line_witness :
  remove_separators
    (("From: A <a@x.com>" +:+ eol) +:+ separator_line 3 4 +:+ "From: B")
  = ("From: A <a@x.com>" +:+ eol) +:+ remove_separators "From: B".
Proof.
  apply (remove_separators_line ("From: A <a@x.com>" +:+ eol) "From: B" 3 4);
    reflexivity.
Defined.

(** ** The metadata extractor *)

Lemma find_none_iff {A} (p : A -> bool) (l : list A) :
  List.find p l = None <-> Forall (fun x => p x = false) l.
Proof.
  induction l as [|x l IH]; simpl.
  - split; [constructor | reflexivity].
  - destruct (p x) eqn:E.
    + split; [discriminate|]. intros H. inversion H; congruence.
    + rewrite IH. split; [now constructor | intros H; now inversion H].
Qed.

Lemma find_skip {A} (p : A -> bool) (l1 l2 : list A) :
  Forall (fun x => p x = false) l1 ->
  List.find p (l1 ++ l2) = List.find p l2.
Proof.
  induction 1 as [|x l1 Hx _ IH]; [reflexivity|]. simpl. now rewrite Hx.
Qed.

Lemma option_map_none {A B} (f : A -> B) (x : option A) :
  option_map f x = None <-> x = None.
Proof. destruct x; simpl; split; congruence. Qed.

Lemma Forall_rev_iff {A} (P : A -> Prop) (l : list A) :
  Forall P (rev l) <-> Forall P l.
Proof.
  rewrite !List.Forall_forall. split; intros H x Hx; apply H;
    [now apply in_rev in Hx | now apply in_rev].
Qed.

(** X12: the number of lines returned is that of the whole reply, the lines
    after the eleventh included. *)
Theorem get_metadata_lines (titles : gset string) (reply : list string) :
  lines (get_metadata titles reply) = List.length reply.
Proof. now rewrite get_metadata_closed_form. Qed.

(** X13: the recipients are the contacts of the lines that start with the
    To or Cc prefix among the lines at indices 0 to 10, one contact a line,
    in the order of the lines; without such a line they are absent, never
    an empty list. *)
Theorem get_metadata_recipients (titles : gset string) (reply : list string) :
  recipients (get_metadata titles reply)
  = match List.filter is_to_cc (firstn 11 reply) with
    | [] => None
    | found =>
        Some (List.map (fun line => get_contact titles (Py.drop 4 line)) found)
    end /\
  recipients (get_metadata titles reply) <> Some [].
Proof.
  rewrite get_metadata_closed_form. unfold headers_of.
  cbn [recipients]. split; [reflexivity|].
  destruct (List.filter is_to_cc (firstn 11 reply)); discriminate.
Qed.

(** X14: a header value is absent exactly when no line at indices 0 to 10
    starts with its prefix. *)
Theorem get_metadata_absent (titles : gset string) (reply : list string) :
  (sender (get_metadata titles reply) = None <->
   Forall (fun l => is_from l = false) (firstn 11 reply)) /\
  (recipients (get_metadata titles reply) = None <->
   Forall (fun l => is_to_cc l = false) (firstn 11 reply)) /\
  (timestamp (get_metadata titles reply) = None <->
   Forall (fun l => is_sent l = false) (firstn 11 reply)) /\
  (subject (get_metadata titles reply) = None <->
   Forall (fun l => is_subject l = false) (firstn 11 reply)).
Proof.
  rewrite get_metadata_closed_form. unfold headers_of.
  cbn [sender recipients timestamp subject].
  rewrite !option_map_none, !find_none_iff, !Forall_rev_iff.
  repeat split; try tauto.
  - intros H. destruct (List.filter is_to_cc (firstn 11 reply)) eqn:E;
      [|discriminate H].
    apply List.Forall_forall. intros l Hl.
    destruct (is_to_cc l) eqn:El; [|reflexivity].
    assert (Hin : In l (List.filter is_to_cc (firstn 11 reply)))
      by (apply filter_In; auto).
    rewrite E in Hin. destruct Hin.
  - intros H.
    assert (E : List.filter is_to_cc (firstn 11 reply) = []).
    { induction H as [|l rest Hl _ IH]; [reflexivity|].
      simpl. now rewrite Hl. }
    now rewrite E.
Qed.

Lemma Forall_firstn {A} (P : A -> Prop) (n : nat) (l : list A) :
  Forall P l -> Forall P (firstn n l).
Proof.
  intros H. apply List.Forall_forall. intros x Hx.
  rewrite List.Forall_forall in H. apply H.
  apply list_elem_of_In. apply list_elem_of_In in Hx.
  apply elem_of_take in Hx. destruct Hx as (i & Hi & _).
  now apply list_elem_of_lookup_2 in Hi.
Qed.

Lemma sender_of_unheaded (titles : gset string) (reply : list string) :
  Forall (fun l => is_from l = false) reply ->
  sender (get_metadata titles reply) = None.
Proof.
  intros H. rewrite get_metadata_closed_form. unfold headers_of.
  cbn [sender]. apply option_map_none, find_none_iff, Forall_rev_iff.
  now apply Forall_firstn.
Qed.

Lemma sender_of_headed (titles : gset string) (reply : list string) :
  headed_reply reply ->
  exists line : string,
    hd_error reply = Some line /\
    sender (get_metadata titles reply)
    = Some (get_contact titles (Py.drop 6 line)).
Proof.
  intros (line & body & -> & Hline & Hbody).
  exists line. split; [reflexivity|].
  rewrite get_metadata_closed_form. unfold headers_of. cbn [sender].
  change (firstn 11 (line :: body)) with (line :: firstn 10 body).
  cbn [rev]. rewrite find_skip.
  - cbn [List.find]. now rewrite Hline.
  - now apply Forall_rev_iff, Forall_firstn.
Qed.

(** X15: on the replies of a message, the first reply has no sender and
    every later reply has the sender of its first line. *)
Theorem get_replies_senders (titles : gset string) (message : string) :
  exists (first : list string) (later : list (list string)),
    get_replies message = first :: later /\
    sender (get_metadata titles first) = None /\
    Forall (fun reply =>
              exists line : string,
                hd_error reply = Some line /\
                sender (get_metadata titles reply)
                = Some (get_contact titles (Py.drop 6 line)))
           later.
Proof.
  destruct (get_replies_shape message)
    as (first & later & Heq & Hfirst & Hlater).
  exists first, later. split; [exact Heq|]. split.
  - now apply sender_of_unheaded.
  - eapply List.Forall_impl; [|exact Hlater].
    intros reply. apply sender_of_headed.
Qed.

(** ** The signature detector *)

Lemma rev_lookup {A} (l : list A) (m : nat) (x : A) :
  rev l !! m = Some x <->
  l !! (List.length l - S m)%nat = Some x /\ (m < List.length l)%nat.
Proof.
  rewrite rev_alt. exact (reverse_lookup_Some l m x).
Qed.

Section SearchFacts.

Variable titles : gset string.
Variable reply : list string.
Variable sender_ : contact.
Variable max_length : Q.

(** The loop returns at the first line, from the end, that passes the
    test, or returns no signature. *)
Lemma search_result (reply_reversed : list string) (i j : nat) :
  search titles reply sender_ max_length reply_reversed i j = no_signature \/
  exists (m : nat) (line : string),
    reply_reversed !! m = Some line /\
    starts_signature titles sender_ line = true /\
    (forall (m' : nat) (line' : string),
        (m' < m)%nat -> reply_reversed !! m' = Some line' ->
        starts_signature titles sender_ line' = false) /\
    search titles reply sender_ max_length reply_reversed i j
    = found_at reply sender_ (i - m).
Proof.
  revert i j. induction reply_reversed as [|line rest IH]; intros i j.
  - left. reflexivity.
  - cbn [search]. destruct (Qeq_bool _ _); [now left|].
    fold (starts_signature titles sender_ line).
    destruct (starts_signature titles sender_ line) eqn:E.
    + right. exists 0%nat, line. rewrite Nat.sub_0_r.
      repeat split; auto. intros m' line' Hm'. lia.
    + destruct (IH (i - 1)%nat (j + 1)%nat)
        as [H|(m & l & Hl & Hstart & Hbefore & H)]; [now left|].
      right. exists (S m), l.
      replace (i - S m)%nat with (i - 1 - m)%nat by lia.
      repeat split; auto.
      intros [|m'] line' Hm' Hline'.
      * simpl in Hline'. now inversion Hline'; subst.
      * apply (Hbefore m' line'); [lia | exact Hline'].
Qed.

Lemma search_never_starts (reply_reversed : list string) (i j : nat) :
  (forall line : string, starts_signature titles sender_ line = false) ->
  search titles reply sender_ max_length reply_reversed i j = no_signature.
Proof.
  intros Hnever. revert i j.
  induction reply_reversed as [|line rest IH]; intros i j; [reflexivity|].
  cbn [search]. destruct (Qeq_bool _ _); [reflexivity|].
  fold (starts_signature titles sender_ line).
  rewrite Hnever. apply IH.
Qed.

End SearchFacts.

Lemma lower_not_empty (t : string) :
  Py.is_empty t = false -> Py.is_empty (Py.lower t) = false.
Proof. now destruct t. Qed.

Lemma filter_in_nothing (tokens : list string) :
  Forall (fun t => Py.is_empty t = false) tokens ->
  List.filter (fun t => Py.contains (Py.lower t) (Py.lower EmptyString))
              tokens = [].
Proof.
  induction 1 as [|t tokens Ht _ IH]; [reflexivity|].
  cbn [List.filter]. rewrite IH.
  apply lower_not_empty in Ht. now destruct (Py.lower t).
Qed.

Lemma starts_signature_no_name (titles : gset string) (sender_ : contact)
    (line : string) :
  name sender_ = EmptyString -> starts_signature titles sender_ line = false.
Proof.
  intros Hname. unfold starts_signature. rewrite Hname.
  rewrite (filter_in_nothing _ (split_from_not_empty _ EmptyString)).
  destruct (Py.split (sanitize_name titles line)) as [|t tokens];
    [reflexivity|].
  rewrite bool_decide_eq_false_2 by discriminate. apply andb_false_r.
Qed.

Lemma get_signature_result (titles : gset string) (reply : list string)
    (sender_ : contact) (length_divisor : Z) (result : signature_metadata) :
  get_signature titles reply sender_ length_divisor = inr result ->
  exists max_length : Q,
    result = search titles reply sender_ max_length (rev reply)
                    (List.length reply) 0.
Proof.
  unfold get_signature. destruct (true_div _ _) as [e|max_length];
    [discriminate|].
  intros H. inversion H. exists max_length. now rewrite List.length_rev.
Qed.

(** X16: for a sender without a name, no line starts a signature: the
    detector returns no signature on every reply, with every divisor other
    than zero. *)
Theorem get_signature_no_name (titles : gset string) (reply : list string)
    (sender_ : contact) (length_divisor : Z) :
  name sender_ = EmptyString -> length_divisor <> 0%Z ->
  get_signature titles reply sender_ length_divisor = inr no_signature.
Proof.
  intros Hname Hd. unfold get_signature.
  destruct (true_div_returns (Z.of_nat (List.length (rev reply)))
              length_divisor Hd) as [max_length ->].
  f_equal. apply search_never_starts.
  intros line. now apply starts_signature_no_name.
Qed.

Lemma get_signature_no_name_witness :
  get_signature sample_titles signed_reply
                (get_contact sample_titles "CEO <ceo@x.org>") 2
  = inr no_signature.
Proof.
  apply (get_signature_no_name sample_titles signed_reply
           (get_contact sample_titles "CEO <ceo@x.org>") 2);
    [reflexivity | lia].
Defined.

Lemma found_at_split (reply : list string) (sender_ : contact) (n m : nat)
    (result : signature_metadata) :
  result = found_at reply sender_ (n - m) ->
  has_signature result = true /\
  signature result
  = Some (Py.strip (Py.join eol (skipn (n - S m) reply))) /\
  reply_text result
  = Some (Py.strip (Py.join eol (firstn (n - S m) reply))).
Proof.
  intros ->. unfold found_at. cbn [has_signature signature reply_text].
  replace (n - m - 1)%nat with (n - S m)%nat by lia. auto.
Qed.

(** X17: a result is no signature, or a split of the reply at one line:
    that line passes the test of the detector, no line after it does, the
    signature is made of the lines from it on and the text of the reply of
    the lines before it, each joined by newlines and stripped. *)
Theorem get_signature_split (titles : gset string) (reply : list string)
    (sender_ : contact) (length_divisor : Z) (result : signature_metadata) :
  get_signature titles reply sender_ length_divisor = inr result ->
  result = no_signature \/
  exists (k : nat) (line : string),
    reply !! k = Some line /\
    starts_signature titles sender_ line = true /\
    (forall (k' : nat) (line' : string),
        (k < k')%nat -> reply !! k' = Some line' ->
        starts_signature titles sender_ line' = false) /\
    has_signature result = true /\
    signature result = Some (Py.strip (Py.join eol (skipn k reply))) /\
    reply_text result = Some (Py.strip (Py.join eol (firstn k reply))).
Proof.
  intros H. apply get_signature_result in H. destruct H as [max_length ->].
  destruct (search_result titles reply sender_ max_length (rev reply)
              (List.length reply) 0)
    as [H|(m & line & Hline & Hstart & Hbefore & H)]; [now left|].
  right. apply rev_lookup in Hline. destruct Hline as [Hline Hm].
  exists (List.length reply - S m)%nat, line.
  split; [exact Hline|]. split; [exact Hstart|]. split.
  - intros k' line' Hk' Hline'.
    assert (Hlt : (k' < List.length reply)%nat)
      by (apply lookup_lt_Some in Hline'; exact Hline').
    apply (Hbefore (List.length reply - S k')%nat line'); [lia|].
    apply rev_lookup. split; [|lia].
    now replace (List.length reply - S (List.length reply - S k'))%nat
      with k' by lia.
  - now apply (found_at_split reply sender_).
Qed.

Lemma get_signature_split_witness :
  found_at signed_reply john_smith 4 = no_signature \/
  exists (k : nat) (line : string),
    signed_reply !! k = Some line /\
    starts_signature sample_titles john_smith line = true /\
    (forall (k' : nat) (line' : string),
        (k < k')%nat -> signed_reply !! k' = Some line' ->
        starts_signature sample_titles john_smith line' = false) /\
    has_signature (found_at signed_reply john_smith 4) = true /\
    signature (found_at signed_reply john_smith 4)
    = Some (Py.strip (Py.join eol (skipn k signed_reply))) /\
    reply_text (found_at signed_reply john_smith 4)
    = Some (Py.strip (Py.join eol (firstn k signed_reply))).
Proof.
  apply (get_signature_split sample_titles signed_reply john_smith 2
           (found_at signed_reply john_smith 4)).
  vm_compute. reflexivity.
Defined.

(** X18: the address is reported in the signature exactly when the sender
    has an address that is not empty and a signature was found that holds
    it, letter case aside. *)
Theorem get_signature_address (titles : gset string) (reply : list string)
    (sender_ : contact) (length_divisor : Z) (result : signature_metadata) :
  get_signature titles reply sender_ length_divisor = inr result ->
  (address_in_signature result = true <->
   exists a found : string,
     address sender_ = Some a /\ Py.is_empty a = false /\
     signature result = Some found /\
     Py.contains (Py.lower a) (Py.lower found) = true).
Proof.
  intros H. apply get_signature_result in H. destruct H as [max_length ->].
  destruct (search_result titles reply sender_ max_length (rev reply)
              (List.length reply) 0)
    as [->|(m & line & _ & _ & _ & ->)].
  - split; [discriminate|]. intros (a & found & _ & _ & H & _).
    discriminate H.
  - unfold found_at. cbn [address_in_signature signature].
    destruct (address sender_) as [a|]; cbn [truthy default].
    + destruct (Py.is_empty a) eqn:Ea; cbn [negb].
      * split; [discriminate|].
        intros (a' & found & Ha & Hne & _). inversion Ha; subst.
        rewrite Ea in Hne. discriminate Hne.
      * split.
        -- intros Hin. exists a. eexists. repeat split; eauto.
        -- intros (a' & found & Ha & _ & Hf & Hin).
           inversion Ha; subst. inversion Hf; subst. exact Hin.
    + split; [discriminate|]. intros (a & found & Ha & _). discriminate Ha.
Qed.

Lemma get_signature_address_witness :
  address_in_signature (found_at signed_reply john_smith 4) = true <->
  exists a found : string,
    address john_smith = Some a /\ Py.is_empty a = false /\
    signature (found_at signed_reply john_smith 4) = Some found /\
    Py.contains (Py.lower a) (Py.lower found) = true.
Proof.
  apply (get_signature_address sample_titles signed_reply john_smith 2
           (found_at signed_reply john_smith 4)).
  vm_compute. reflexivity.
Defined.

(** X19: when the divisor divides the number of lines, the limit holds as
    documented: a signature begins within the last quotient lines of the
    reply. *)
Theorem get_signature_whole_quotient_bound (titles : gset string)
    (reply : list string) (sender_ : contact) (q : nat) (d : Z)
    (result : signature_metadata) :
  d <> 0%Z -> Z.of_nat (List.length reply) = (Z.of_nat q * d)%Z ->
  get_signature titles reply sender_ d = inr result ->
  has_signature result = true ->
  exists k : nat,
    (List.length reply - q <= k < List.length reply)%nat /\
    signature result = Some (Py.strip (Py.join eol (skipn k reply))) /\
    reply_text result = Some (Py.strip (Py.join eol (firstn k reply))).
Proof.
  intros Hd Hlen Hres Hsig.
  destruct (get_signature_whole_quotient titles reply sender_ q d Hd Hlen)
    as [max_length Hwhole].
  rewrite Hwhole in Hres.
  assert (Hr : search titles reply sender_ max_length
                      (firstn q (rev reply)) (List.length reply) 0
               = result) by congruence.
  clear Hres.
  destruct (search_result titles reply sender_ max_length
              (firstn q (rev reply)) (List.length reply) 0)
    as [H|(m & line & Hline & _ & _ & H)].
  - rewrite H in Hr. subst result. discriminate Hsig.
  - apply lookup_take_Some in Hline. destruct Hline as [Hline Hm].
    apply rev_lookup in Hline. destruct Hline as [_ Hn].
    exists (List.length reply - S m)%nat. split; [lia|].
    apply (found_at_split reply sender_ (List.length reply) m).
    congruence.
Qed.

Lemma get_signature_whole_quotient_bound_witness :
  exists k : nat,
    (List.length signed_reply - 2 <= k < List.length signed_reply)%nat /\
    signature (found_at signed_reply john_smith 4)
    = Some (Py.strip (Py.join eol (skipn k signed_reply))) /\
    reply_text (found_at signed_reply john_smith 4)
    = Some (Py.strip (Py.join eol (firstn k signed_reply))).
Proof.
  apply (get_signature_whole_quotient_bound sample_titles signed_reply
           john_smith 2 2 (found_at signed_reply john_smith 4));
    [lia | reflexivity | vm_compute; reflexivity | reflexivity].
Defined.

(** ** The driver *)

Lemma get_signature_default (titles : gset string) (reply : list string)
    (sender_ : contact) :
  exists found : signature_metadata,
    get_signature titles reply sender_ 2 = inr found.
Proof.
  unfold get_signature.
  destruct (true_div_returns (Z.of_nat (List.length (rev reply))) 2)
    as [max_length ->]; [lia | eauto].
Qed.

Lemma print_replies_headed (titles : gset string)
    (MS : list (list string)) :
  Forall headed_reply MS ->
  exists printed : list (metadata * option string),
    print_replies titles MS = inr printed /\
    List.length printed = List.length MS /\
    Forall (fun record => is_Some (sender (fst record))) printed.
Proof.
  induction 1 as [|ms rest Hms _ IH].
  - exists []. repeat split. constructor.
  - destruct IH as (printed & Hprinted & Hlen & Hsenders).
    destruct (sender_of_headed titles ms Hms) as (line & _ & Hsender).
    cbn [print_replies]. rewrite Hsender.
    destruct (get_signature_default titles ms
                (get_contact titles (Py.drop 6 line))) as [found ->].
    rewrite Hprinted. eexists. split; [reflexivity|].
    split; [cbn [List.length]; now rewrite Hlen|].
    constructor; [|exact Hsenders]. cbn [fst]. rewrite Hsender. eauto.
Qed.

(** X20: the driver raises nothing and prints one record for every line
    that starts with the sender prefix, each with a sender; the lines before
    the first such line are never printed. *)
Theorem main_records (titles : gset string) (message : string) :
  exists printed : list (metadata * option string),
    main titles message = inr printed /\
    List.length printed
    = List.length (List.filter is_from (message_lines message)) /\
    Forall (fun record => is_Some (sender (fst record))) printed.
Proof.
  unfold main.
  pose proof (split_at_from_length (message_lines message) []) as Hcount.
  rewrite <- split_replies_one_pass in Hcount.
  fold (get_replies message) in Hcount.
  destruct (get_replies_shape message)
    as (first & later & Heq & Hfirst & Hlater).
  rewrite Heq in *. cbn [print_replies].
  rewrite (sender_of_unheaded titles first Hfirst).
  destruct (print_replies_headed titles later Hlater)
    as (printed & Hprinted & Hlen & Hsenders).
  exists printed. split; [exact Hprinted|]. split; [|exact Hsenders].
  cbn [List.length] in Hcount. lia.
Qed.
